(** * AgniaChallenge: token broker and GitHub action handlers

    A shallow embedding of
      - [authorizations/src/hackathon_utils.py] (the persist step),
      - [authorizations/src/main.py] (the OAuth callback endpoints),
      - [team_actions/src/actions/GitHub/actions.py] (the action handlers),
    as programs of a small effect monad: outbound HTTP calls, reads and
    writes of the two module-level [authorization_data] dictionaries and
    [print] are the nodes of a program tree, exceptions are a result of
    their own, and [run] interprets a tree against a server and a world. *)

From Stdlib Require Import ZArith String List PrimFloat.
From stdpp Require Import base option gmap strings list pretty.

#[local] Set Warnings "-register-all".
Local Open Scope string_scope.
Local Open Scope Z_scope.

(** ** Python values *)

(** What [response.json()] can return, which is also what the handlers put
    into request bodies and what the credential dictionaries hold. *)
Inductive pyval : Type :=
| PNone
| PBool (b : bool)
| PInt (z : Z)
| PFloat (f : float)
| PStr (s : string)
| PList (l : list pyval)
| PDict (d : list (string * pyval)).

(** Truth value of a Python object, as tested by [if not token]. *)
Definition py_bool (v : pyval) : bool :=
  match v with
  | PNone => false
  | PBool b => b
  | PInt z => negb (z =? 0)%Z
  | PFloat f => negb (PrimFloat.eqb f 0%float)
  | PStr s => negb (String.eqb s "")
  | PList l => match l with [] => false | _ :: _ => true end
  | PDict d => match d with [] => false | _ :: _ => true end
  end.

(** [v is None] *)
Definition is_None (v : pyval) : bool :=
  match v with PNone => true | _ => false end.

(** An [Optional[str]] argument and an [Optional[List[str]]] argument as
    Python values. *)
Definition of_opt_str (o : option string) : pyval :=
  match o with Some s => PStr s | None => PNone end.

Definition of_opt_strs (o : option (list string)) : pyval :=
  match o with Some l => PList (map PStr l) | None => PNone end.

(** A module-level credential dictionary: system name to an entry, itself a
    dictionary from field name to value. *)
Abbreviation entry := (gmap string pyval).
Abbreviation store := (gmap string (gmap string pyval)).

(** [d.get(k)] on an entry: [None] when the key is absent. *)
Definition entry_get (d : entry) (k : string) : pyval :=
  default PNone (d !! k).

(** [authorization_data.get(k, {})] *)
Definition store_get (st : store) (k : string) : entry :=
  default ∅ (st !! k).

(** ** HTTP requests and responses *)

Inductive method := GET | POST | PUT | PATCH | DELETE.

Record request := {
  req_method : method;
  req_url : string;
  req_headers : list (string * string);
  req_params : option (list (string * pyval));
  req_json : option pyval;
  req_data : option (list (string * pyval))
}.

(** A [requests.Response]: [resp_json] is what [.json()] returns, [None]
    when the body is not JSON. *)
Record response := {
  status_code : Z;
  reason : string;
  resp_url : string;
  resp_json : option pyval
}.

(** A call of [requests] either raises a transport-level
    [RequestException] (connection error, timeout, ...) or gives a
    response; an [HTTPError] comes from [raise_for_status] only. *)
Inductive http_result :=
| Failed (kind : string)
| Responded (resp : response).

(** ** Exceptions *)

Inductive exn :=
| ValueError (msg : string)
| TypeError
| KeyError (key : string)
| JSONDecodeError
| DecodeError
| RequestException (kind : string)
| HTTPError (msg : string) (resp : response)
| HTTPException (status : Z) (detail : string).

(** ** The two credential dictionaries

    [hackathon_utils.py] line 8 and [actions.py] line 70 each bind a
    module-level name [authorization_data] to a dictionary of its own. *)
Inductive global :=
| hackathon_utils_authorization_data
| actions_authorization_data.

Record world := {
  hackathon_utils_store : store;
  actions_store : store
}.

Definition read_global (g : global) (w : world) : store :=
  match g with
  | hackathon_utils_authorization_data => hackathon_utils_store w
  | actions_authorization_data => actions_store w
  end.

(** [authorization_data[key] = v] on the dictionary bound to [g] *)
Definition set_item (g : global) (key : string) (v : entry) (w : world) : world :=
  match g with
  | hackathon_utils_authorization_data =>
      {| hackathon_utils_store := <[key := v]> (hackathon_utils_store w);
         actions_store := actions_store w |}
  | actions_authorization_data =>
      {| hackathon_utils_store := hackathon_utils_store w;
         actions_store := <[key := v]> (actions_store w) |}
  end.

(** ** Programs *)

Inductive printed :=
| PrVal (v : pyval)
| PrStore (st : store).

Inductive prog (A : Type) : Type :=
| Ret (a : A)
| Raise (e : exn)
| Request (r : request) (k : http_result -> prog A)
| ReadGlobal (g : global) (k : store -> prog A)
| SetItem (g : global) (key : string) (v : entry) (k : prog A)
| PyPrint (label : string) (what : printed) (k : prog A).

Arguments Ret {A} a.
Arguments Raise {A} e.
Arguments Request {A} r k.
Arguments ReadGlobal {A} g k.
Arguments SetItem {A} g key v k.
Arguments PyPrint {A} label what k.

Fixpoint bind {A B} (p : prog A) (f : A -> prog B) : prog B :=
  match p with
  | Ret a => f a
  | Raise e => Raise e
  | Request r k => Request r (fun x => bind (k x) f)
  | ReadGlobal g k => ReadGlobal g (fun st => bind (k st) f)
  | SetItem g key v k => SetItem g key v (bind k f)
  | PyPrint l w k => PyPrint l w (bind k f)
  end.

(** [try: body  except ...: handler]; [handler e = None] when no [except]
    clause matches [e], which then propagates. *)
Fixpoint try_except {A} (body : prog A) (handler : exn -> option (prog A)) : prog A :=
  match body with
  | Ret a => Ret a
  | Raise e => match handler e with Some h => h | None => Raise e end
  | Request r k => Request r (fun x => try_except (k x) handler)
  | ReadGlobal g k => ReadGlobal g (fun st => try_except (k st) handler)
  | SetItem g key v k => SetItem g key v (try_except k handler)
  | PyPrint l w k => PyPrint l w (try_except k handler)
  end.

Declare Scope prog_scope.
Delimit Scope prog_scope with prog.
Notation "x <- c ;; k" := (bind c (fun x => k))
  (at level 100, c at next level, right associativity) : prog_scope.
Notation "c ;;; k" := (bind c (fun _ => k))
  (at level 100, right associativity) : prog_scope.
Local Open Scope prog_scope.

(** ** Running a program *)

Inductive event :=
| EvRequest (r : request)
| EvSetItem (g : global) (key : string) (v : entry)
| EvPrint (label : string) (what : printed).

(** The server answers the [n]-th outbound request of a run. *)
Definition server := nat -> request -> http_result.

Record result (A : Type) := {
  final : world;
  trace : list event;
  outcome : exn + A
}.
Arguments final {A} r.
Arguments trace {A} r.
Arguments outcome {A} r.

Definition after {A} (ev : event) (r : result A) : result A :=
  {| final := final r; trace := ev :: trace r; outcome := outcome r |}.

Fixpoint run {A} (p : prog A) (srv : server) (n : nat) (w : world) : result A :=
  match p with
  | Ret a => {| final := w; trace := []; outcome := inr a |}
  | Raise e => {| final := w; trace := []; outcome := inl e |}
  | Request r k => after (EvRequest r) (run (k (srv n r)) srv (S n) w)
  | ReadGlobal g k => run (k (read_global g w)) srv n w
  | SetItem g key v k => after (EvSetItem g key v) (run k srv n (set_item g key v w))
  | PyPrint l x k => after (EvPrint l x) (run k srv n w)
  end.

(** The outbound requests of a run, in order, and its dictionary writes. *)
Definition requests_of (t : list event) : list request :=
  omap (fun ev => match ev with EvRequest r => Some r | _ => None end) t.

Definition writes_of (t : list event) : list (global * string * entry) :=
  omap (fun ev => match ev with EvSetItem g k v => Some (g, k, v) | _ => None end) t.

(** ** The [requests] library *)

Definition requests_call (r : request) : prog response :=
  Request r (fun x =>
    match x with
    | Failed kind => Raise (RequestException kind)
    | Responded resp => Ret resp
    end).

(** [Response.raise_for_status]: an [HTTPError] for a 4xx or a 5xx status,
    nothing otherwise. *)
Definition http_error_msg (r : response) : option string :=
  if (400 <=? status_code r) && (status_code r <? 500) then
    Some (pretty (status_code r) +:+ " Client Error: " +:+ reason r
          +:+ " for url: " +:+ resp_url r)
  else if (500 <=? status_code r) && (status_code r <? 600) then
    Some (pretty (status_code r) +:+ " Server Error: " +:+ reason r
          +:+ " for url: " +:+ resp_url r)
  else None.

Definition raise_for_status (r : response) : prog unit :=
  match http_error_msg r with
  | Some msg => Raise (HTTPError msg r)
  | None => Ret tt
  end.

(** [Response.json] *)
Definition response_json (r : response) : prog pyval :=
  match resp_json r with
  | Some v => Ret v
  | None => Raise JSONDecodeError
  end.

Definition mk_request (m : method) (url : string) (headers : list (string * string))
    (params : option (list (string * pyval))) (json : option pyval)
    (data : option (list (string * pyval))) : request :=
  {| req_method := m; req_url := url; req_headers := headers;
     req_params := params; req_json := json; req_data := data |}.

Definition requests_get url headers params : prog response :=
  requests_call (mk_request GET url headers params None None).
Definition requests_post url headers json data : prog response :=
  requests_call (mk_request POST url headers None json data).
Definition requests_put url headers json : prog response :=
  requests_call (mk_request PUT url headers None json None).
Definition requests_patch url headers json : prog response :=
  requests_call (mk_request PATCH url headers None json None).
Definition requests_delete url headers json : prog response :=
  requests_call (mk_request DELETE url headers None json None).

(** ** Python builtins and library functions the source calls

    [str] on a value (inside an f-string), [json.dumps], and the two
    base64 round trips of the file actions
    ([base64.b64encode(s.encode('utf-8')).decode('utf-8')] and
    [base64.b64decode(v).decode('utf-8')], which can raise). *)
Class PyBuiltins := {
  py_str : pyval -> string;
  json_dumps : pyval -> string;
  b64encode_utf8 : string -> string;
  b64decode_utf8 : pyval -> exn + string
}.

Definition lift {A} (x : exn + A) : prog A :=
  match x with inl e => Raise e | inr a => Ret a end.

(** The items of a [dict] are kept in insertion order, keys distinct. *)
Definition dict_lookup (k : string) (d : list (string * pyval)) : option pyval :=
  snd <$> find (fun kv => String.eqb (fst kv) k) d.

(** [v[k]] for a [str] key [k] *)
Definition py_getitem (v : pyval) (k : string) : prog pyval :=
  match v with
  | PDict d =>
      match dict_lookup k d with
      | Some x => Ret x
      | None => Raise (KeyError k)
      end
  | _ => Raise TypeError
  end.

(** [k in v] for a [str] [k]: a key of a dict, an element of a list, a
    substring of a string, a [TypeError] on anything else. *)
Definition py_contains (k : string) (v : pyval) : prog bool :=
  match v with
  | PDict d => Ret (bool_decide (is_Some (dict_lookup k d)))
  | PList l =>
      Ret (existsb (fun x => match x with PStr s => String.eqb s k | _ => false end) l)
  | PStr s => Ret (bool_decide (is_Some (String.index 0 k s)))
  | _ => Raise TypeError
  end.

(** [{k: v for k, v in d.items() if v is not None}] *)
Definition drop_None (d : list (string * pyval)) : list (string * pyval) :=
  List.filter (fun kv => negb (is_None (snd kv))) d.

(** * GitHub action handlers ([team_actions/src/actions/GitHub/actions.py])

    Arguments are taken after Python has bound them, defaults included. *)
Module GitHub.
Section Actions.
Context `{PyBuiltins}.

Definition missing_token_message : string :=
  "Authorization token for GitHub is missing.".

(** The lines every handler starts with:
    [token = authorization_data.get("GitHub", {}).get("access_token")]
    [if not token: raise ValueError(...)] *)
Definition github_token : prog pyval :=
  ReadGlobal actions_authorization_data (fun authorization_data =>
    let token := entry_get (store_get authorization_data "GitHub") "access_token" in
    if negb (py_bool token) then Raise (ValueError missing_token_message)
    else Ret token).

(** The [headers=] every handler passes. *)
Definition headers (token : pyval) : list (string * string) :=
  [("Authorization", "Bearer " +:+ py_str token);
   ("Accept", "application/vnd.github+json")].

(** [{"message": s}] *)
Definition message_dict (s : string) : pyval := PDict [("message", PStr s)].

Definition create_issue (repo title : string) (body : option string)
    (labels : option (list string)) : prog pyval :=
  token <- github_token ;;
  response <- requests_post
    ("https://api.github.com/repos/" +:+ repo +:+ "/issues")
    (headers token)
    (Some (PDict [("title", PStr title); ("body", of_opt_str body);
                  ("labels", of_opt_strs labels)]))
    None ;;
  raise_for_status response ;;;
  response_json response.

Definition create_repository (name : string) (description : option string)
    (private : bool) : prog pyval :=
  token <- github_token ;;
  response <- requests_post
    "https://api.github.com/user/repos"
    (headers token)
    (Some (PDict [("name", PStr name); ("description", of_opt_str description);
                  ("private", PBool private)]))
    None ;;
  raise_for_status response ;;;
  response_json response.

Definition delete_repository (repo : string) : prog pyval :=
  token <- github_token ;;
  response <- requests_delete
    ("https://api.github.com/repos/" +:+ repo)
    (headers token) None ;;
  if status_code response =? 204 then Ret (message_dict "Repository deleted successfully.")
  else
    raise_for_status response ;;;
    Ret (message_dict "Failed to delete repository.").

Definition get_issue (repo : string) (issue_number : Z) : prog pyval :=
  token <- github_token ;;
  response <- requests_get
    ("https://api.github.com/repos/" +:+ repo +:+ "/issues/" +:+ pretty issue_number)
    (headers token) None ;;
  raise_for_status response ;;;
  response_json response.

Definition update_issue (repo : string) (issue_number : Z)
    (title body state : option string) (assignees : option (list string)) : prog pyval :=
  token <- github_token ;;
  let data := [("title", of_opt_str title); ("body", of_opt_str body);
               ("state", of_opt_str state); ("assignees", of_opt_strs assignees)] in
  let data := drop_None data in
  response <- requests_patch
    ("https://api.github.com/repos/Fugaret/" +:+ repo +:+ "/issues/"
       +:+ pretty issue_number)
    (headers token)
    (Some (PDict data)) ;;
  raise_for_status response ;;;
  response_json response.

Definition close_issue (repo : string) (issue_number : Z) : prog pyval :=
  token <- github_token ;;
  response <- requests_patch
    ("https://api.github.com/repos/Fugaret/" +:+ repo +:+ "/issues/"
       +:+ pretty issue_number)
    (headers token)
    (Some (PDict [("state", PStr "closed")])) ;;
  raise_for_status response ;;;
  response_json response.

(** [state or "open"] *)
Definition or_open (state : option string) : string :=
  match state with
  | Some s => if String.eqb s "" then "open" else s
  | None => "open"
  end.

(** [",".join(labels) if labels else None] *)
Definition joined_labels (labels : option (list string)) : pyval :=
  match labels with
  | Some (l :: ls) => PStr (String.concat "," (l :: ls))
  | _ => PNone
  end.

Definition list_issues (repo : string) (state : option string)
    (labels : option (list string)) (assignee : option string) : prog pyval :=
  token <- github_token ;;
  let params := [("state", PStr (or_open state)); ("labels", joined_labels labels);
                 ("assignee", of_opt_str assignee)] in
  let params := drop_None params in
  response <- requests_get
    ("https://api.github.com/repos/" +:+ repo +:+ "/issues")
    (headers token) (Some params) ;;
  raise_for_status response ;;;
  response_json response.

Definition get_repository_info (repo : string) : prog pyval :=
  token <- github_token ;;
  response <- requests_get
    ("https://api.github.com/repos/Fugaret/" +:+ repo)
    (headers token) None ;;
  raise_for_status response ;;;
  response_json response.

Definition star_repository (repo : string) : prog pyval :=
  token <- github_token ;;
  response <- requests_put
    ("https://api.github.com/user/starred/" +:+ repo)
    (headers token) None ;;
  if status_code response =? 204 then Ret (message_dict "Repository starred successfully.")
  else
    raise_for_status response ;;;
    Ret (message_dict "Failed to star repository.").

Definition unstar_repository (repo : string) : prog pyval :=
  token <- github_token ;;
  response <- requests_delete
    ("https://api.github.com/user/starred/" +:+ repo)
    (headers token) None ;;
  if status_code response =? 204 then Ret (message_dict "Repository unstarred successfully.")
  else
    raise_for_status response ;;;
    Ret (message_dict "Failed to unstar repository.").

Definition list_branches (repo : string) : prog pyval :=
  token <- github_token ;;
  response <- requests_get
    ("https://api.github.com/repos/" +:+ repo +:+ "/branches")
    (headers token) None ;;
  raise_for_status response ;;;
  response_json response.

Definition create_branch (repo branch_name commit_sha : string) : prog pyval :=
  token <- github_token ;;
  response <- requests_post
    ("https://api.github.com/repos/" +:+ repo +:+ "/git/refs")
    (headers token)
    (Some (PDict [("ref", PStr ("refs/heads/" +:+ branch_name));
                  ("sha", PStr commit_sha)]))
    None ;;
  raise_for_status response ;;;
  response_json response.

Definition delete_branch (repo branch_name : string) : prog pyval :=
  token <- github_token ;;
  response <- requests_delete
    ("https://api.github.com/repos/Fugaret/" +:+ repo +:+ "/git/refs/heads/"
       +:+ branch_name)
    (headers token) None ;;
  if status_code response =? 204 then Ret (message_dict "Branch deleted successfully.")
  else
    raise_for_status response ;;;
    Ret (message_dict "Failed to delete branch.").

Definition get_file_content (repo file_path branch : string) : prog pyval :=
  token <- github_token ;;
  response <- requests_get
    ("https://api.github.com/repos/" +:+ repo +:+ "/contents/" +:+ file_path)
    (headers token) (Some [("ref", PStr branch)]) ;;
  raise_for_status response ;;;
  file_data <- response_json response ;;
  content <- py_getitem file_data "content" ;;
  file_content <- lift (b64decode_utf8 content) ;;
  Ret (PDict [("file_content", PStr file_content)]).

Definition create_file (repo file_path content branch message : string) : prog pyval :=
  token <- github_token ;;
  let encoded_content := b64encode_utf8 content in
  response <- requests_put
    ("https://api.github.com/repos/" +:+ repo +:+ "/contents/" +:+ file_path)
    (headers token)
    (Some (PDict [("message", PStr message); ("content", PStr encoded_content);
                  ("branch", PStr branch)])) ;;
  raise_for_status response ;;;
  response_json response.

Definition update_file (repo file_path content branch message : string) : prog pyval :=
  token <- github_token ;;
  get_response <- requests_get
    ("https://api.github.com/repos/" +:+ repo +:+ "/contents/" +:+ file_path)
    (headers token) (Some [("ref", PStr branch)]) ;;
  raise_for_status get_response ;;;
  file_data <- response_json get_response ;;
  file_sha <- py_getitem file_data "sha" ;;
  let encoded_content := b64encode_utf8 content in
  response <- requests_put
    ("https://api.github.com/repos/" +:+ repo +:+ "/contents/" +:+ file_path)
    (headers token)
    (Some (PDict [("message", PStr message); ("content", PStr encoded_content);
                  ("sha", file_sha); ("branch", PStr branch)])) ;;
  raise_for_status response ;;;
  response_json response.

Definition delete_file (repo file_path branch message : string) : prog pyval :=
  token <- github_token ;;
  get_response <- requests_get
    ("https://api.github.com/repos/" +:+ repo +:+ "/contents/" +:+ file_path)
    (headers token) (Some [("ref", PStr branch)]) ;;
  raise_for_status get_response ;;;
  file_data <- response_json get_response ;;
  file_sha <- py_getitem file_data "sha" ;;
  response <- requests_delete
    ("https://api.github.com/repos/" +:+ repo +:+ "/contents/" +:+ file_path)
    (headers token)
    (Some (PDict [("message", PStr message); ("sha", file_sha);
                  ("branch", PStr branch)])) ;;
  raise_for_status response ;;;
  Ret (message_dict "File deleted successfully.").

Definition create_pull_request (repo title head base body : string) : prog pyval :=
  token <- github_token ;;
  response <- requests_post
    ("https://api.github.com/repos/" +:+ repo +:+ "/pulls")
    (headers token)
    (Some (PDict [("title", PStr title); ("head", PStr head); ("base", PStr base);
                  ("body", PStr body)]))
    None ;;
  raise_for_status response ;;;
  response_json response.

Definition list_pull_requests (repo state : string) : prog pyval :=
  token <- github_token ;;
  let params := [("state", PStr state)] in
  response <- requests_get
    ("https://api.github.com/repos/" +:+ repo +:+ "/pulls")
    (headers token) (Some params) ;;
  raise_for_status response ;;;
  response_json response.

Definition merge_pull_request (repo : string) (pull_number : Z)
    (commit_message : string) : prog pyval :=
  token <- github_token ;;
  response <- requests_put
    ("https://api.github.com/repos/" +:+ repo +:+ "/pulls/" +:+ pretty pull_number
       +:+ "/merge")
    (headers token)
    (Some (PDict [("commit_message", PStr commit_message)])) ;;
  raise_for_status response ;;;
  response_json response.

Definition close_pull_request (repo : string) (pull_number : Z) : prog pyval :=
  token <- github_token ;;
  response <- requests_patch
    ("https://api.github.com/repos/" +:+ repo +:+ "/pulls/" +:+ pretty pull_number)
    (headers token)
    (Some (PDict [("state", PStr "closed")])) ;;
  raise_for_status response ;;;
  response_json response.

(** A registered handler together with an argument assignment. *)
Inductive call :=
| CreateIssue (repo title : string) (body : option string) (labels : option (list string))
| CreateRepository (name : string) (description : option string) (private : bool)
| DeleteRepository (repo : string)
| GetIssue (repo : string) (issue_number : Z)
| UpdateIssue (repo : string) (issue_number : Z) (title body state : option string)
    (assignees : option (list string))
| CloseIssue (repo : string) (issue_number : Z)
| ListIssues (repo : string) (state : option string) (labels : option (list string))
    (assignee : option string)
| GetRepositoryInfo (repo : string)
| StarRepository (repo : string)
| UnstarRepository (repo : string)
| ListBranches (repo : string)
| CreateBranch (repo branch_name commit_sha : string)
| DeleteBranch (repo branch_name : string)
| GetFileContent (repo file_path branch : string)
| CreateFile (repo file_path content branch message : string)
| UpdateFile (repo file_path content branch message : string)
| DeleteFile (repo file_path branch message : string)
| CreatePullRequest (repo title head base body : string)
| ListPullRequests (repo state : string)
| MergePullRequest (repo : string) (pull_number : Z) (commit_message : string)
| ClosePullRequest (repo : string) (pull_number : Z).

Definition handler (c : call) : prog pyval :=
  match c with
  | CreateIssue repo title body labels => create_issue repo title body labels
  | CreateRepository name description private => create_repository name description private
  | DeleteRepository repo => delete_repository repo
  | GetIssue repo n => get_issue repo n
  | UpdateIssue repo n title body state assignees =>
      update_issue repo n title body state assignees
  | CloseIssue repo n => close_issue repo n
  | ListIssues repo state labels assignee => list_issues repo state labels assignee
  | GetRepositoryInfo repo => get_repository_info repo
  | StarRepository repo => star_repository repo
  | UnstarRepository repo => unstar_repository repo
  | ListBranches repo => list_branches repo
  | CreateBranch repo branch_name commit_sha => create_branch repo branch_name commit_sha
  | DeleteBranch repo branch_name => delete_branch repo branch_name
  | GetFileContent repo file_path branch => get_file_content repo file_path branch
  | CreateFile repo file_path content branch message =>
      create_file repo file_path content branch message
  | UpdateFile repo file_path content branch message =>
      update_file repo file_path content branch message
  | DeleteFile repo file_path branch message => delete_file repo file_path branch message
  | CreatePullRequest repo title head base body =>
      create_pull_request repo title head base body
  | ListPullRequests repo state => list_pull_requests repo state
  | MergePullRequest repo n commit_message => merge_pull_request repo n commit_message
  | ClosePullRequest repo n => close_pull_request repo n
  end.

End Actions.
End GitHub.

(** * Token broker ([authorizations/src]) *)

(** [settings.py]: pydantic settings, whose field values come from the
    environment or from the defaults of the class. *)
Record BaseHackathonSettings := {
  user_token_from_tg_bot : string;
  save_auth_data_endpoint : string
}.

Record GitHubAuthSettings := {
  github_oauth_api_url : string;
  github_token_exchange_api_url : string;
  github_redirect_url : string;
  github_client_id : string;
  github_client_secret : string;
  github_scope : string;
  github_state : string
}.

(** [fastapi.responses.JSONResponse] *)
Record JSONResponse := {
  jr_status_code : Z;
  jr_content : pyval
}.

Module Broker.
Section Endpoints.
Context `{PyBuiltins}.
Variable base_hackathon_settings : BaseHackathonSettings.
Variable github_auth_settings : GitHubAuthSettings.

(** [authorization_services/todoist.py] is not part of the sources at hand:
    [todoist.callback(code, state, error)] is a parameter. *)
Variable todoist_callback : option string -> option string -> option string -> prog pyval.

Definition no_access_token_message : string :=
  "No access token found in authorization_data_response".

(** The two [except] clauses of [save_authorization_data_and_return_response]:
    [requests.exceptions.HTTPError] first (it carries the response
    [raise_for_status] was called on, the [resp] of the source), then any
    other [requests.exceptions.RequestException]. *)
Definition save_except (e : exn) : option (prog JSONResponse) :=
  match e with
  | HTTPError msg resp =>
      Some (
        if status_code resp =? 400 then
          Raise (HTTPException 400 "Bad request to save authorization data")
        else if status_code resp =? 401 then
          Raise (HTTPException 401 "Unauthorized to save authorization data")
        else if status_code resp =? 403 then
          Raise (HTTPException 403 "Forbidden to save authorization data")
        else if status_code resp =? 404 then
          Raise (HTTPException 404 "Endpoint to save authorization data not found")
        else if status_code resp >=? 500 then
          Raise (HTTPException 502 "Server error while saving authorization data")
        else
          Raise (HTTPException 500 ("Unexpected error: " +:+ msg)))
  | RequestException _ =>
      Some (Raise (HTTPException 500 "Error occurred while saving authorization data"))
  | _ => None
  end.

Definition save_authorization_data_and_return_response
    (authorization_data_response : pyval) (system_name : string) : prog JSONResponse :=
  let header :=
    [("Authorization", "Bearer " +:+ user_token_from_tg_bot base_hackathon_settings)] in
  let data :=
    PDict [("system_name", PStr system_name);
           ("authorization_data_json", PStr (json_dumps authorization_data_response))] in
  try_except
    (resp <- requests_post (save_auth_data_endpoint base_hackathon_settings)
               header (Some data) None ;;
     raise_for_status resp ;;;
     has_token <- py_contains "access_token" authorization_data_response ;;
     (if has_token : bool then
        access_token <- py_getitem authorization_data_response "access_token" ;;
        SetItem hackathon_utils_authorization_data system_name
          {[ "access_token" := access_token ]} (Ret tt)
      else Raise (ValueError no_access_token_message)) ;;;
     if status_code resp =? 200 then
       Ret {| jr_status_code := 200;
              jr_content := PDict [("message",
                                    PStr "Authorization successful and data saved.")] |}
     else
       Ret {| jr_status_code := status_code resp;
              jr_content := PDict [("message",
                                    PStr ("Unexpected response: "
                                          +:+ pretty (status_code resp)))] |})
    save_except.

(** [main.py] *)

Definition get_todoist_token (code state error : option string) : prog JSONResponse :=
  if bool_decide (error = Some "invalid_application_status") then
    Raise (HTTPException 500 "Invalid application status")
  else if bool_decide (error = Some "invalid_scope") then
    Raise (HTTPException 400 "Invalid scope")
  else if bool_decide (error = Some "access_denied") then
    Raise (HTTPException 403 "User denied authorization")
  else
    authorization_token <- todoist_callback code state error ;;
    save_authorization_data_and_return_response authorization_token "Todoist".

Definition authorize_in_github : pyval :=
  PDict [("url", PStr ("https://github.com/login/oauth/authorize?"
                       +:+ "client_id=" +:+ github_client_id github_auth_settings +:+ "&"
                       +:+ "redirect_uri="
                       +:+ github_redirect_url github_auth_settings))].

(** [not code] for an [Optional[str]] *)
Definition code_missing (code : option string) : bool :=
  negb (py_bool (of_opt_str code)).

Definition get_github_token (code error : option string) : prog JSONResponse :=
  if bool_decide (error = Some "access_denied") then
    Raise (HTTPException 403 "User denied authorization")
  else if code_missing code then
    Raise (HTTPException 400 "Authorization code is missing")
  else
    response <- requests_post
      "https://github.com/login/oauth/access_token"
      [("Accept", "application/json")]
      None
      (Some [("client_id", PStr (github_client_id github_auth_settings));
             ("client_secret", PStr (github_client_secret github_auth_settings));
             ("code", of_opt_str code)]) ;;
    raise_for_status response ;;;
    auth_data <- response_json response ;;
    PyPrint "Auth Data from GitHub:" (PrVal auth_data) (Ret tt) ;;;
    save_response <- save_authorization_data_and_return_response auth_data "GitHub" ;;
    (* the name [authorization_data] of main.py is the one imported from
       team_actions.src.actions.GitHub.actions *)
    ReadGlobal actions_authorization_data (fun authorization_data =>
    PyPrint "Authorization Data after saving:" (PrStore authorization_data) (Ret tt)) ;;;
    Ret save_response.

End Endpoints.
End Broker.

(** ** Notions used in the statements *)

(** The number of outbound requests of a run. *)
Definition nreq {A} (r : result A) : nat := length (requests_of (trace r)).

(** What a handler finds at
    [authorization_data.get("GitHub", {}).get("access_token")]. *)
Definition stored_token (w : world) : pyval :=
  entry_get (store_get (actions_store w) "GitHub") "access_token".

(** A run that raises the missing-token error at once. *)
Definition rejected {A} (w : world) : result A :=
  {| final := w; trace := [];
     outcome := inl (ValueError GitHub.missing_token_message) |}.

(** A 4xx or 5xx status: the statuses on which [raise_for_status] raises. *)
Definition error_status (r : response) : Prop := 400 <= status_code r < 600.

(** A program fails fast when the continuation of each of its requests,
    given a response with an error status, is the raise of the [HTTPError]
    of that response. *)
Fixpoint fails_fast {A} (p : prog A) : Prop :=
  match p with
  | Ret _ | Raise _ => True
  | Request r k =>
      (forall kind, fails_fast (k (Failed kind))) /\
      (forall resp,
         fails_fast (k (Responded resp)) /\
         (error_status resp ->
          exists msg, http_error_msg resp = Some msg /\
                      k (Responded resp) = Raise (HTTPError msg resp)))
  | ReadGlobal g k => forall st, fails_fast (k st)
  | SetItem _ _ _ k | PyPrint _ _ k => fails_fast k
  end.

(** The URL of a route under [/repos/{full_name}] of the GitHub API. *)
Definition repos_url (full_name suffix : string) : string :=
  "https://api.github.com/repos/" +:+ full_name +:+ suffix.

(** The URL of the first outbound request of a run. *)
Definition first_url {A} (r : result A) : option string :=
  req_url <$> (requests_of (trace r) !! 0%nat).

(** The POST that [save_authorization_data_and_return_response] sends to the
    durable backend. *)
Definition save_request `{PyBuiltins} (settings : BaseHackathonSettings)
    (authorization_data_response : pyval) (system_name : string) : request :=
  mk_request POST (save_auth_data_endpoint settings)
    [("Authorization", "Bearer " +:+ user_token_from_tg_bot settings)]
    None
    (Some (PDict [("system_name", PStr system_name);
                  ("authorization_data_json",
                   PStr (json_dumps authorization_data_response))]))
    None.

(** ** Concrete inputs for the examples

    The theorems hold for every instance of the builtins. The examples need
    one to run on: [py_str] is exact on strings, the other three functions
    are placeholders, and no example depends on what they return. *)
Module Example.

Definition builtins : PyBuiltins :=
  {| py_str := fun v => match v with PStr s => s | _ => "" end;
     json_dumps := fun _ => "";
     b64encode_utf8 := fun s => s;
     b64decode_utf8 := fun _ => inl DecodeError |}.

Definition base_hackathon_settings : BaseHackathonSettings :=
  {| user_token_from_tg_bot := "tg-token";
     save_auth_data_endpoint := "https://backend.example/save-authorization-data" |}.

Definition github_auth_settings : GitHubAuthSettings :=
  {| github_oauth_api_url := "https://github.com/login/oauth/authorize";
     github_token_exchange_api_url := "https://github.com/login/oauth/access_token";
     github_redirect_url := "http://localhost:9000/github/get-token";
     github_client_id := "client-id";
     github_client_secret := "client-secret";
     github_scope := "repo,user";
     github_state := "state" |}.

(** Both dictionaries empty, as at process start. *)
Definition fresh : world :=
  {| hackathon_utils_store := ∅; actions_store := ∅ |}.

(** The handlers' dictionary holds a token for GitHub. *)
Definition authorized (token : string) : world :=
  {| hackathon_utils_store := ∅;
     actions_store := {[ "GitHub" := {[ "access_token" := PStr token ]} ]} |}.

Definition reply (status : Z) (reason : string) (body : option pyval) : response :=
  {| status_code := status; reason := reason; resp_url := ""; resp_json := body |}.

(** A server that gives the same answer to every request. *)
Definition always (x : http_result) : server := fun _ _ => x.

(** A server that answers its requests from a list, in order, and fails to
    connect afterwards. *)
Definition script (answers : list http_result) : server :=
  fun n _ => default (Failed "ConnectionError") (answers !! n).

End Example.

(** ** Notions used in the further properties *)

(** A program that does no I/O at all: it returns or raises at once. *)
Definition leaf {A} (p : prog A) : Prop :=
  match p with
  | Ret _ | Raise _ => True
  | _ => False
  end.

(** A disciplined program does nothing but outbound requests: no dictionary
    access and no print; each request satisfies [Q]; a transport failure of
    a request is re-raised as it is; and no path of the tree holds more
    than [k] requests. *)
Fixpoint disciplined {A} (Q : request -> Prop) (k : nat) (p : prog A) {struct p}
    : Prop :=
  match p with
  | Ret _ | Raise _ => True
  | Request r c =>
      match k with
      | O => False
      | S k' =>
          Q r /\
          (forall kind, c (Failed kind) = Raise (RequestException kind)) /\
          (forall resp, disciplined Q k' (c (Responded resp)))
      end
  | ReadGlobal _ _ | SetItem _ _ _ _ | PyPrint _ _ _ => False
  end.

(** What every request of a handler looks like, given the token the
    handler read: the two headers, and a URL of the GitHub API. *)
Definition authenticated `{PyBuiltins} (token : pyval) (r : request) : Prop :=
  req_headers r = [("Authorization", "Bearer " +:+ py_str token);
                   ("Accept", "application/vnd.github+json")] /\
  String.prefix "https://api.github.com/" (req_url r) = true.

(** The largest number of requests a handler makes: two for the file
    actions that first fetch the current sha, one for the others. *)
Definition request_budget (c : GitHub.call) : nat :=
  match c with
  | GitHub.UpdateFile _ _ _ _ _ | GitHub.DeleteFile _ _ _ _ => 2
  | _ => 1
  end.

(** The handlers whose last statement is [return response.json()] after
    their only request. *)
Definition returns_response_json (c : GitHub.call) : bool :=
  match c with
  | GitHub.CreateIssue _ _ _ _ | GitHub.CreateRepository _ _ _
  | GitHub.GetIssue _ _ | GitHub.UpdateIssue _ _ _ _ _ _ | GitHub.CloseIssue _ _
  | GitHub.ListIssues _ _ _ _ | GitHub.GetRepositoryInfo _ | GitHub.ListBranches _
  | GitHub.CreateBranch _ _ _ | GitHub.CreateFile _ _ _ _ _
  | GitHub.CreatePullRequest _ _ _ _ _ | GitHub.ListPullRequests _ _
  | GitHub.MergePullRequest _ _ _ | GitHub.ClosePullRequest _ _ => true
  | _ => false
  end.

(** The JSON body of the [i]-th outbound request of a run. *)
Definition json_of_request {A} (i : nat) (r : result A) : option pyval :=
  requests_of (trace r) !! i ≫= req_json.

(** The query parameters of the first outbound request of a run. *)
Definition first_params {A} (r : result A) : option (list (string * pyval)) :=
  requests_of (trace r) !! 0%nat ≫= req_params.

(** The token exchange that [get_github_token] posts to GitHub. *)
Definition exchange_request (settings : GitHubAuthSettings) (code : option string)
    : request :=
  mk_request POST "https://github.com/login/oauth/access_token"
    [("Accept", "application/json")]
    None None
    (Some [("client_id", PStr (github_client_id settings));
           ("client_secret", PStr (github_client_secret settings));
           ("code", of_opt_str code)]).

(** The error codes [get_todoist_token] rejects by itself. *)
Definition todoist_rejects (error : option string) : Prop :=
  error = Some "invalid_application_status" \/ error = Some "invalid_scope" \/
  error = Some "access_denied".

(** ** Integers in f-strings

    The handlers put an [int] argument into the URL with an f-string, which
    the model writes with [pretty]. CPython formats an [int] of at most 4300
    decimal digits (the default of [sys.set_int_max_str_digits]) and raises
    [ValueError] on a longer one, before the request is made: what is said
    of a request whose URL holds an integer is said of the integers that
    can be formatted. *)
Definition formattable (z : Z) : Prop := Z.abs z < 10 ^ 4300.

(** The integer argument of a call, if it has one, can be formatted. *)
Definition int_arguments_fit (c : GitHub.call) : Prop :=
  match c with
  | GitHub.GetIssue _ n | GitHub.UpdateIssue _ n _ _ _ _ | GitHub.CloseIssue _ n
  | GitHub.MergePullRequest _ n _ | GitHub.ClosePullRequest _ n => formattable n
  | _ => True
  end.

(** The entry of a dict for an optional field: present when given. *)
Definition given_field (k : string) (v : option pyval) : list (string * pyval) :=
  match v with
  | Some x => [(k, x)]
  | None => []
  end.

(** * Properties *)

(** ** Running composite programs *)

Lemma run_bind {A B} (p : prog A) (f : A -> prog B) srv n w :
  run (bind p f) srv n w =
  match outcome (run p srv n w) with
  | inl e =>
      {| final := final (run p srv n w); trace := trace (run p srv n w);
         outcome := inl e |}
  | inr a =>
      let r' := run (f a) srv (n + nreq (run p srv n w))%nat (final (run p srv n w)) in
      {| final := final r'; trace := trace (run p srv n w) ++ trace r';
         outcome := outcome r' |}
  end.
Proof.
  revert n w.
  induction p as [a|e|r k IH|g k IH|g key v k IH|l x k IH]; intros n w; cbn [bind run].
  - cbn. rewrite Nat.add_0_r. by destruct (run (f a) srv n w).
  - done.
  - rewrite IH. unfold after, nreq.
    destruct (run (k (srv n r)) srv (S n) w) as [fw tr [e|a]]; cbn; [done|].
    by rewrite Nat.add_succ_r.
  - apply IH.
  - rewrite IH. unfold after, nreq.
    by destruct (run k srv n (set_item g key v w)) as [fw tr [e|a]].
  - rewrite IH. unfold after, nreq.
    by destruct (run k srv n w) as [fw tr [e|a]].
Qed.

Lemma run_try_except {A} (p : prog A) (h : exn -> option (prog A)) srv n w :
  run (try_except p h) srv n w =
  match outcome (run p srv n w) with
  | inl e =>
      match h e with
      | Some q =>
          let r' := run q srv (n + nreq (run p srv n w))%nat (final (run p srv n w)) in
          {| final := final r'; trace := trace (run p srv n w) ++ trace r';
             outcome := outcome r' |}
      | None => run p srv n w
      end
  | inr a => run p srv n w
  end.
Proof.
  revert n w.
  induction p as [a|e|r k IH|g k IH|g key v k IH|l x k IH]; intros n w;
    cbn [try_except run].
  - done.
  - cbn. destruct (h e) as [q|]; [|done].
    rewrite Nat.add_0_r. by destruct (run q srv n w).
  - rewrite IH. unfold after, nreq.
    destruct (run (k (srv n r)) srv (S n) w) as [fw tr [e|a]]; cbn; [|done].
    destruct (h e); [|done]. by rewrite Nat.add_succ_r.
  - apply IH.
  - rewrite IH. unfold after, nreq.
    destruct (run k srv n (set_item g key v w)) as [fw tr [e|a]]; cbn; [|done].
    by destruct (h e).
  - rewrite IH. unfold after, nreq.
    destruct (run k srv n w) as [fw tr [e|a]]; cbn; [|done].
    by destruct (h e).
Qed.

Lemma string_length_app (s1 s2 : string) :
  String.length (s1 +:+ s2) = (String.length s1 + String.length s2)%nat.
Proof.
  induction s1 as [|a s1 IH]; [done|].
  change (S (String.length (s1 +:+ s2)) = S (String.length s1 + String.length s2)).
  by rewrite IH.
Qed.

Lemma string_app_nil_r (s : string) : s +:+ "" = s.
Proof.
  induction s as [|a s IH]; [done|].
  change (String a (s +:+ "") = String a s). by rewrite IH.
Qed.

(** ** The action handlers *)

Section HandlerProperties.
Context `{PyBuiltins}.

Lemma github_token_falsy {A} (f : pyval -> prog A) srv n w :
  py_bool (stored_token w) = false ->
  run (bind GitHub.github_token f) srv n w = rejected w.
Proof.
  intros Hf. unfold GitHub.github_token. cbn [bind run read_global].
  unfold stored_token in Hf. by rewrite Hf.
Qed.

Lemma github_token_truthy {A} (f : pyval -> prog A) srv n w :
  py_bool (stored_token w) = true ->
  run (bind GitHub.github_token f) srv n w = run (f (stored_token w)) srv n w.
Proof.
  intros Hf. unfold GitHub.github_token. cbn [bind run read_global].
  unfold stored_token in Hf. by rewrite Hf.
Qed.

Lemma handler_starts_with_token (c : GitHub.call) :
  exists f, GitHub.handler c = bind GitHub.github_token f.
Proof. destruct c; eexists; reflexivity. Qed.

Lemma handler_rejected (c : GitHub.call) srv n w :
  py_bool (stored_token w) = false ->
  run (GitHub.handler c) srv n w = rejected w.
Proof.
  intros Hf. destruct (handler_starts_with_token c) as [f ->].
  by apply github_token_falsy.
Qed.

(** *** Error statuses *)

(** [http_error_msg] gives a message exactly on the statuses 400..599. *)
Lemma http_error_msg_spec (resp : response) :
  (error_status resp /\ exists msg, http_error_msg resp = Some msg) \/
  (~ error_status resp /\ http_error_msg resp = None).
Proof.
  unfold error_status, http_error_msg.
  destruct ((400 <=? status_code resp) && (status_code resp <? 500)) eqn:Hclient.
  { left. apply andb_true_iff in Hclient as [Hlo%Z.leb_le Hhi%Z.ltb_lt].
    split; [lia|by eexists]. }
  destruct ((500 <=? status_code resp) && (status_code resp <? 600)) eqn:Hserver.
  { left. apply andb_true_iff in Hserver as [Hlo%Z.leb_le Hhi%Z.ltb_lt].
    split; [lia|by eexists]. }
  right. split; [|done].
  apply andb_false_iff in Hclient as [Hc%Z.leb_gt|Hc%Z.ltb_ge];
    apply andb_false_iff in Hserver as [Hs%Z.leb_gt|Hs%Z.ltb_ge]; lia.
Qed.

Lemma error_status_msg (resp : response) :
  error_status resp -> exists msg, http_error_msg resp = Some msg.
Proof. by destruct (http_error_msg_spec resp) as [[_ Hmsg]|[Hok _]]. Qed.

Lemma no_error_msg (resp : response) :
  http_error_msg resp = None <-> ~ error_status resp.
Proof.
  destruct (http_error_msg_spec resp) as [[Herr [msg Hmsg]]|[Hok Hnone]].
  - rewrite Hmsg. by split.
  - by split.
Qed.

Lemma fails_fast_call {A} (r : request) (f : response -> prog A) :
  (forall resp, fails_fast (f resp)) ->
  (forall resp, error_status resp ->
     exists msg, http_error_msg resp = Some msg /\ f resp = Raise (HTTPError msg resp)) ->
  fails_fast (bind (requests_call r) f).
Proof. intros Hff Herr. cbn. split; [done|]. intros resp. split; [apply Hff|apply Herr]. Qed.

Lemma raise_for_status_error {A} (resp : response) (g : unit -> prog A) :
  error_status resp ->
  exists msg, http_error_msg resp = Some msg /\
              bind (raise_for_status resp) g = Raise (HTTPError msg resp).
Proof.
  intros Herr. destruct (error_status_msg resp Herr) as [msg Hmsg].
  exists msg. split; [done|]. unfold raise_for_status. by rewrite Hmsg.
Qed.

Lemma fails_fast_run {A} (p : prog A) :
  fails_fast p ->
  forall srv n w i req resp,
    requests_of (trace (run p srv n w)) !! i = Some req ->
    srv (n + i)%nat req = Responded resp ->
    error_status resp ->
    exists msg, http_error_msg resp = Some msg /\
                outcome (run p srv n w) = inl (HTTPError msg resp) /\
                nreq (run p srv n w) = S i.
Proof.
  induction p as [a|e|r k IH|g k IH|g key v k IH|l x k IH];
    intros Hff srv n w i req resp Hi Hsrv Herr; cbn in Hff.
  - done.
  - done.
  - destruct Hff as [Hfail Hresp]. cbn [run] in *. unfold nreq in *.
    destruct i as [|i]; cbn in Hi |- *.
    + injection Hi as ->. rewrite Nat.add_0_r in Hsrv. rewrite Hsrv.
      destruct (Hresp resp) as [_ Hk]. destruct (Hk Herr) as (msg & Hmsg & ->).
      exists msg. by cbn.
    + rewrite Nat.add_succ_r in Hsrv.
      destruct (IH (srv n r)) with (srv := srv) (n := S n) (w := w) (i := i)
        (req := req) (resp := resp) as (msg & Hmsg & Hout & Hn); try done.
      { destruct (srv n r); [apply Hfail|apply Hresp]. }
      exists msg. split; [done|]. split; [done|]. f_equal. exact Hn.
  - cbn [run]. by eapply IH.
  - cbn [run] in *. unfold nreq in *. cbn in Hi |- *. by eapply IH.
  - cbn [run] in *. unfold nreq in *. cbn in Hi |- *. by eapply IH.
Qed.

Lemma fails_fast_bind {A B} (p : prog A) (f : A -> prog B) :
  fails_fast p -> (forall a, fails_fast (f a)) -> fails_fast (bind p f).
Proof.
  intros Hp Hf.
  induction p as [a|e|r k IH|g k IH|g key v k IH|l x k IH]; cbn in Hp |- *; auto.
  destruct Hp as [Hfail Hresp]. split; [by auto|].
  intros resp. destruct (Hresp resp) as [Hff Herr]. split; [by auto|].
  intros Hst. destruct (Herr Hst) as (msg & Hmsg & ->). by exists msg.
Qed.

Lemma fails_fast_raise_for_status (resp : response) : fails_fast (raise_for_status resp).
Proof. unfold raise_for_status. by destruct (http_error_msg resp). Qed.

Lemma fails_fast_response_json (resp : response) : fails_fast (response_json resp).
Proof. unfold response_json. by destruct (resp_json resp). Qed.

Lemma fails_fast_py_getitem (v : pyval) (k : string) : fails_fast (py_getitem v k).
Proof. destruct v; cbn; try done. by destruct (dict_lookup k d). Qed.

Lemma fails_fast_lift {A} (x : exn + A) : fails_fast (lift x).
Proof. by destruct x. Qed.

Lemma fails_fast_github_token : fails_fast GitHub.github_token.
Proof. intros st. cbn. by destruct (py_bool _). Qed.

Lemma status_204_not_error (resp : response) :
  error_status resp -> (status_code resp =? 204) = false.
Proof. unfold error_status. intros Herr. apply Z.eqb_neq. lia. Qed.

Create HintDb fails_fast.

#[local] Hint Resolve fails_fast_raise_for_status fails_fast_response_json
  fails_fast_py_getitem fails_fast_lift fails_fast_github_token : fails_fast.

Ltac fails_fast_step :=
  first
    [ exact I
    | progress intros
    | solve [auto with fails_fast]
    | apply fails_fast_call
    | apply fails_fast_bind
    | match goal with
      | |- fails_fast (if ?b then _ else _) => destruct b
      | Herr : error_status ?resp |- exists msg, _ /\ (if _ then _ else _) = _ =>
          rewrite (status_204_not_error resp Herr)
      | Herr : error_status ?resp |- exists msg, _ /\ bind (raise_for_status ?resp) _ = _ =>
          apply (raise_for_status_error resp _ Herr)
      end ].

Lemma handler_fails_fast (c : GitHub.call) : fails_fast (GitHub.handler c).
Proof. destruct c; cbn [GitHub.handler]; repeat fails_fast_step. Qed.

(** C3: with no entry for "GitHub" in the dictionary the handlers read, every
    handler, on every argument assignment, raises
    [ValueError("Authorization token for GitHub is missing.")] and the run
    has no event at all: no outbound request, not even the preliminary GET
    of [update_file] and [delete_file]. *)
Theorem missing_entry_raises_before_any_request (c : GitHub.call) srv n w :
  actions_store w !! "GitHub" = None ->
  run (GitHub.handler c) srv n w =
    {| final := w; trace := [];
       outcome := inl (ValueError "Authorization token for GitHub is missing.") |}.
Proof.
  intros Hnone. apply handler_rejected.
  unfold stored_token, store_get, entry_get. by rewrite Hnone.
Qed.

(** C10: an entry for "GitHub" whose [access_token] is the empty string, or
    that has no [access_token] key, makes every handler raise the same
    [ValueError] as a missing entry, again with no event in the run. *)
Theorem falsy_token_raises_like_missing (c : GitHub.call) srv n w (e : entry) :
  actions_store w !! "GitHub" = Some e ->
  e !! "access_token" = Some (PStr "") \/ e !! "access_token" = None ->
  run (GitHub.handler c) srv n w =
    {| final := w; trace := [];
       outcome := inl (ValueError "Authorization token for GitHub is missing.") |}.
Proof.
  intros He Htok. apply handler_rejected.
  unfold stored_token, store_get, entry_get. rewrite He. cbn.
  by destruct Htok as [-> | ->].
Qed.

(** C6 (amended): whatever the handler and its arguments, when one of its
    requests is answered with a 4xx or 5xx status, the handler raises the
    [HTTPError] that carries this very response (status and reason) and the
    message [raise_for_status] builds from it; that request is the last of
    the run and no result is returned. *)
Theorem handler_raises_on_error_status (c : GitHub.call) srv w i req resp :
  requests_of (trace (run (GitHub.handler c) srv 0 w)) !! i = Some req ->
  srv i req = Responded resp ->
  400 <= status_code resp < 600 ->
  exists msg,
    http_error_msg resp = Some msg /\
    outcome (run (GitHub.handler c) srv 0 w) = inl (HTTPError msg resp) /\
    nreq (run (GitHub.handler c) srv 0 w) = S i.
Proof.
  intros Hi Hsrv Herr.
  by apply (fails_fast_run _ (handler_fails_fast c) srv 0%nat w i req resp).
Qed.

Lemma repos_url_owner_differs (repo suffix : string) :
  repos_url repo suffix <> repos_url ("Fugaret/" +:+ repo) suffix.
Proof.
  intros Heq. apply (f_equal String.length) in Heq. unfold repos_url in Heq.
  rewrite !string_length_app in Heq. cbn in Heq. lia.
Qed.

(** C8: with a token in place, [create_issue] and [get_issue] send their
    request to the repository named by [repo] verbatim, while [update_issue]
    and [get_repository_info] send theirs to the repository
    ["Fugaret/" + repo]; for one and the same [repo] and issue number,
    [get_issue] and [update_issue] call different URLs. *)
Theorem repository_owner_inconsistent srv n w (repo : string) (issue_number : Z)
    (title : string) (body : option string) (labels : option (list string))
    (new_title new_body state : option string) (assignees : option (list string)) :
  py_bool (stored_token w) = true ->
  first_url (run (GitHub.create_issue repo title body labels) srv n w)
    = Some (repos_url repo "/issues") /\
  first_url (run (GitHub.get_issue repo issue_number) srv n w)
    = Some (repos_url repo ("/issues/" +:+ pretty issue_number)) /\
  first_url (run (GitHub.update_issue repo issue_number new_title new_body state
               assignees) srv n w)
    = Some (repos_url ("Fugaret/" +:+ repo) ("/issues/" +:+ pretty issue_number)) /\
  first_url (run (GitHub.get_repository_info repo) srv n w)
    = Some (repos_url ("Fugaret/" +:+ repo) "") /\
  repos_url repo ("/issues/" +:+ pretty issue_number)
    <> repos_url ("Fugaret/" +:+ repo) ("/issues/" +:+ pretty issue_number).
Proof.
  intros Htok.
  unfold GitHub.create_issue, GitHub.get_issue, GitHub.update_issue,
    GitHub.get_repository_info.
  rewrite !github_token_truthy by done.
  split; [reflexivity|]. split; [reflexivity|]. split; [reflexivity|].
  split; [|apply repos_url_owner_differs].
  unfold repos_url. rewrite string_app_nil_r. reflexivity.
Qed.

End HandlerProperties.

(** ** The persist step *)

Section PersistProperties.
Context `{PyBuiltins}.
Variable settings : BaseHackathonSettings.

Abbreviation save := (Broker.save_authorization_data_and_return_response settings).

Ltac run_save Hsrv :=
  unfold Broker.save_authorization_data_and_return_response;
  cbn [requests_post requests_call bind try_except run];
  match type of Hsrv with
  | _ _ (save_request _ ?payload ?s) = _ => fold (save_request settings payload s)
  end;
  rewrite Hsrv; cbn [bind try_except run].

Lemma save_transport_failure payload s srv n w kind :
  srv n (save_request settings payload s) = Failed kind ->
  run (save payload s) srv n w =
    {| final := w; trace := [EvRequest (save_request settings payload s)];
       outcome := inl (HTTPException 500
                         "Error occurred while saving authorization data") |}.
Proof. intros Hsrv. run_save Hsrv. reflexivity. Qed.

Lemma save_error_status payload s srv n w resp :
  srv n (save_request settings payload s) = Responded resp ->
  error_status resp ->
  exists status detail,
    run (save payload s) srv n w =
      {| final := w; trace := [EvRequest (save_request settings payload s)];
         outcome := inl (HTTPException status detail) |} /\
    400 <= status < 600.
Proof.
  intros Hsrv Herr. run_save Hsrv.
  destruct (error_status_msg resp Herr) as [msg Hmsg].
  unfold raise_for_status. rewrite Hmsg. cbn [bind try_except run Broker.save_except].
  repeat match goal with
    | |- context [if ?b then _ else _] => destruct b
    end; do 2 eexists; (split; [reflexivity|lia]).
Qed.

Lemma save_without_token (d : list (string * pyval)) s srv n w resp :
  srv n (save_request settings (PDict d) s) = Responded resp ->
  ~ error_status resp ->
  dict_lookup "access_token" d = None ->
  run (save (PDict d) s) srv n w =
    {| final := w; trace := [EvRequest (save_request settings (PDict d) s)];
       outcome := inl (ValueError Broker.no_access_token_message) |}.
Proof.
  intros Hsrv Hok Hnone. run_save Hsrv.
  apply no_error_msg in Hok. unfold raise_for_status. rewrite Hok.
  cbn [bind try_except run py_contains]. rewrite Hnone.
  rewrite bool_decide_eq_false_2 by (by intros [? ?]).
  reflexivity.
Qed.

Lemma save_with_token (d : list (string * pyval)) (t : pyval) s srv n w resp :
  srv n (save_request settings (PDict d) s) = Responded resp ->
  ~ error_status resp ->
  dict_lookup "access_token" d = Some t ->
  exists ack,
    run (save (PDict d) s) srv n w =
      {| final := set_item hackathon_utils_authorization_data s
                    {[ "access_token" := t ]} w;
         trace := [EvRequest (save_request settings (PDict d) s);
                   EvSetItem hackathon_utils_authorization_data s
                     {[ "access_token" := t ]}];
         outcome := inr ack |} /\
    jr_status_code ack = status_code resp.
Proof.
  intros Hsrv Hok Hsome. run_save Hsrv.
  apply no_error_msg in Hok. unfold raise_for_status. rewrite Hok.
  cbn [bind try_except run py_contains py_getitem]. rewrite Hsome.
  rewrite bool_decide_eq_true_2 by (by eexists).
  cbn [bind try_except run].
  destruct (Z.eqb_spec (status_code resp) 200) as [->|Hne];
    eexists; (split; [reflexivity|done]).
Qed.

(** Whatever the payload and whatever the backend answers, the persist
    step leaves the dictionary of the handlers alone. *)
Lemma save_frame payload s srv n w :
  actions_store (final (run (save payload s) srv n w)) = actions_store w.
Proof.
  destruct (srv n (save_request settings payload s)) as [kind|resp] eqn:Hsrv.
  { by rewrite (save_transport_failure _ _ _ _ _ _ Hsrv). }
  run_save Hsrv. unfold raise_for_status.
  destruct (http_error_msg resp) as [msg|];
    cbn [bind try_except run Broker.save_except].
  { repeat match goal with
      | |- context [if ?b then _ else _] => destruct b
      end; reflexivity. }
  destruct payload as [|b|z|f|s0|l|d]; cbn [py_contains py_getitem bind try_except run];
    try reflexivity.
  - by destruct (bool_decide _).
  - by destruct (existsb _ l).
  - destruct (bool_decide _); [|reflexivity]. cbn [bind try_except run].
    destruct (dict_lookup "access_token" d); cbn [bind try_except run]; [|reflexivity].
    by destruct (status_code resp =? 200).
Qed.

(** C2 (amended): when the POST to the durable backend fails at transport
    level, or is answered with a 4xx or 5xx status, the broker's dictionary
    (and the handlers') is exactly what it was, the run has written nothing,
    and the caller gets an [HTTPException] with an error status. *)
Theorem persist_failure_leaves_store payload s srv n w :
  (exists kind, srv n (save_request settings payload s) = Failed kind) \/
  (exists resp, srv n (save_request settings payload s) = Responded resp /\
                400 <= status_code resp < 600) ->
  final (run (save payload s) srv n w) = w /\
  writes_of (trace (run (save payload s) srv n w)) = [] /\
  exists status detail,
    outcome (run (save payload s) srv n w) = inl (HTTPException status detail) /\
    400 <= status < 600.
Proof.
  intros [[kind Hsrv] | (resp & Hsrv & Herr)].
  - rewrite (save_transport_failure _ _ _ _ w _ Hsrv). cbn.
    split; [done|]. split; [done|]. do 2 eexists. split; [reflexivity|lia].
  - destruct (save_error_status _ _ _ _ w _ Hsrv Herr) as (status & detail & -> & Hst).
    cbn. split; [done|]. split; [done|]. by exists status, detail.
Qed.

(** C5 (amended): a payload that is an object without [access_token] never
    changes the dictionaries; and when the durable backend has taken the
    POST (no 4xx or 5xx answer), the attempt ends with
    [ValueError("No access token found in authorization_data_response")]. *)
Theorem no_access_token_is_rejected (d : list (string * pyval)) s srv n w :
  dict_lookup "access_token" d = None ->
  final (run (save (PDict d) s) srv n w) = w /\
  forall resp,
    srv n (save_request settings (PDict d) s) = Responded resp ->
    ~ (400 <= status_code resp < 600) ->
    outcome (run (save (PDict d) s) srv n w)
      = inl (ValueError "No access token found in authorization_data_response").
Proof.
  intros Hnone. split.
  - destruct (srv n (save_request settings (PDict d) s)) as [kind|resp] eqn:Hsrv.
    + by rewrite (save_transport_failure _ _ _ _ w _ Hsrv).
    + destruct (decide (error_status resp)) as [Herr|Hok].
      * by destruct (save_error_status _ _ _ _ w _ Hsrv Herr) as (? & ? & -> & _).
      * by rewrite (save_without_token _ _ _ _ w _ Hsrv Hok Hnone).
  - intros resp Hsrv Hok. by rewrite (save_without_token _ _ _ _ w _ Hsrv Hok Hnone).
Qed.

(** C7: after a persist that the backend answered with a 2xx status, for a
    payload whose [access_token] is [t], the broker's dictionary maps the
    system name to exactly [{"access_token": t}], whatever it held there
    before, every other key is as before, and the run made exactly one
    write. *)
Theorem persist_supersedes_entry (d : list (string * pyval)) (t : pyval) s srv n w resp :
  srv n (save_request settings (PDict d) s) = Responded resp ->
  200 <= status_code resp < 300 ->
  dict_lookup "access_token" d = Some t ->
  hackathon_utils_store (final (run (save (PDict d) s) srv n w)) !! s
    = Some {[ "access_token" := t ]} /\
  (forall s', s' <> s ->
     hackathon_utils_store (final (run (save (PDict d) s) srv n w)) !! s'
       = hackathon_utils_store w !! s') /\
  actions_store (final (run (save (PDict d) s) srv n w)) = actions_store w /\
  writes_of (trace (run (save (PDict d) s) srv n w))
    = [(hackathon_utils_authorization_data, s, {[ "access_token" := t ]})].
Proof.
  intros Hsrv Hst Hsome.
  assert (Hok : ~ error_status resp) by (unfold error_status; lia).
  destruct (save_with_token _ _ _ _ _ w _ Hsrv Hok Hsome) as (ack & -> & _). cbn.
  split; [apply lookup_insert_eq|]. split; [|done].
  intros s' Hne. by apply lookup_insert_ne.
Qed.

(** C9 (amended): a payload that is a JSON object without [access_token],
    and that the backend answers with a 2xx status, has been sent, whole,
    to the backend (the one request of the run) when the attempt fails
    with the [ValueError]; nothing is written locally. *)
Theorem malformed_payload_is_sent_before_validation
    (d : list (string * pyval)) s srv n w resp :
  dict_lookup "access_token" d = None ->
  srv n (save_request settings (PDict d) s) = Responded resp ->
  200 <= status_code resp < 300 ->
  run (save (PDict d) s) srv n w =
    {| final := w;
       trace := [EvRequest (save_request settings (PDict d) s)];
       outcome :=
         inl (ValueError "No access token found in authorization_data_response") |} /\
  req_json (save_request settings (PDict d) s)
    = Some (PDict [("system_name", PStr s);
                   ("authorization_data_json", PStr (json_dumps (PDict d)))]).
Proof.
  intros Hnone Hsrv Hst.
  assert (Hok : ~ error_status resp) by (unfold error_status; lia).
  by rewrite (save_without_token _ _ _ _ w _ Hsrv Hok Hnone).
Qed.

End PersistProperties.

(** ** The OAuth callback endpoints *)

Section EndpointProperties.
Context `{PyBuiltins}.
Variable settings : BaseHackathonSettings.
Variable github_settings : GitHubAuthSettings.
Variable todoist_callback : option string -> option string -> option string -> prog pyval.

Abbreviation get_todoist_token :=
  (Broker.get_todoist_token settings todoist_callback).
Abbreviation get_github_token :=
  (Broker.get_github_token settings github_settings).

(** C4 (amended): on the Todoist endpoint the three error codes end the
    attempt with 500, 400 and 403; on the GitHub endpoint [access_denied]
    ends it with 403. In each case the run has no event (no token exchange,
    no write) and the world is as before. *)
Theorem callback_error_is_rejected (code state : option string) srv n w :
  run (get_todoist_token code state (Some "invalid_application_status")) srv n w
    = {| final := w; trace := [];
         outcome := inl (HTTPException 500 "Invalid application status") |} /\
  run (get_todoist_token code state (Some "invalid_scope")) srv n w
    = {| final := w; trace := [];
         outcome := inl (HTTPException 400 "Invalid scope") |} /\
  run (get_todoist_token code state (Some "access_denied")) srv n w
    = {| final := w; trace := [];
         outcome := inl (HTTPException 403 "User denied authorization") |} /\
  run (get_github_token code (Some "access_denied")) srv n w
    = {| final := w; trace := [];
         outcome := inl (HTTPException 403 "User denied authorization") |}.
Proof. repeat split. Qed.

(** The GitHub endpoint, too, leaves the dictionary of the handlers alone:
    its only write is the one of the persist step. *)
Lemma get_github_token_frame (code error : option string) srv n w :
  actions_store (final (run (get_github_token code error) srv n w)) = actions_store w.
Proof.
  unfold Broker.get_github_token.
  destruct (bool_decide _); [reflexivity|].
  destruct (Broker.code_missing code); [reflexivity|].
  cbn [requests_post requests_call bind run].
  match goal with |- context [srv n ?r] => destruct (srv n r) as [kind|resp] end;
    cbn [bind run]; [reflexivity|].
  unfold raise_for_status. destruct (http_error_msg resp); cbn [bind run]; [reflexivity|].
  unfold response_json. destruct (resp_json resp) as [auth_data|]; cbn [bind run];
    [|reflexivity].
  rewrite run_bind.
  pose proof (save_frame settings auth_data "GitHub" srv (S n) w) as Hframe.
  destruct (run (Broker.save_authorization_data_and_return_response settings auth_data
                   "GitHub") srv (S n) w) as [fw tr [e|ack]]; cbn in Hframe |- *; done.
Qed.

(** C1, on the code: an exchange and persist through the GitHub endpoint
    writes the dictionary of [hackathon_utils], not the one the handlers
    read. A handler that found no usable token before the exchange finds
    none after it, whatever the exchange did. *)
Theorem exchange_invisible_to_handlers (code error : option string) srv n w
    (c : GitHub.call) srv' n' :
  py_bool (stored_token w) = false ->
  run (GitHub.handler c) srv' n' (final (run (get_github_token code error) srv n w))
    = rejected (final (run (get_github_token code error) srv n w)).
Proof.
  intros Hfalsy. apply handler_rejected.
  unfold stored_token in *. by rewrite get_github_token_frame.
Qed.

End EndpointProperties.

(** *** The handler theorems at concrete inputs *)

Lemma missing_entry_raises_before_any_request_witness :
  actions_store Example.fresh !! "GitHub" = None /\
  run (GitHub.handler (H := Example.builtins)
         (GitHub.DeleteFile "octo/demo" "README.md" "main" "Delete file"))
      (Example.always (Responded (Example.reply 200 "OK" None))) 0 Example.fresh
  = {| final := Example.fresh; trace := [];
       outcome := inl (ValueError "Authorization token for GitHub is missing.") |}.
Proof.
  split; [reflexivity|].
  apply missing_entry_raises_before_any_request. reflexivity.
Defined.

Lemma falsy_token_raises_like_missing_witness :
  run (GitHub.handler (H := Example.builtins)
         (GitHub.CreateRepository "demo" None false))
      (Example.always (Responded (Example.reply 201 "Created" None))) 0
      (Example.authorized "")
  = {| final := Example.authorized ""; trace := [];
       outcome := inl (ValueError "Authorization token for GitHub is missing.") |}.
Proof.
  apply (falsy_token_raises_like_missing (H := Example.builtins) _ _ _ _
           {[ "access_token" := PStr "" ]}).
  - reflexivity.
  - left. reflexivity.
Defined.

Lemma handler_raises_on_error_status_witness :
  let resp := Example.reply 404 "Not Found" None in
  let r := run (GitHub.handler (H := Example.builtins)
                  (GitHub.CreateIssue "octo/demo" "title" None None))
               (Example.always (Responded resp)) 0 (Example.authorized "gho_1") in
  exists msg,
    http_error_msg resp = Some msg /\
    outcome r = inl (HTTPError msg resp) /\
    nreq r = 1%nat.
Proof.
  cbv zeta.
  eapply (handler_raises_on_error_status (H := Example.builtins)
            (GitHub.CreateIssue "octo/demo" "title" None None)
            (Example.always (Responded (Example.reply 404 "Not Found" None)))
            (Example.authorized "gho_1") 0%nat).
  - vm_compute. reflexivity.
  - reflexivity.
  - cbn. lia.
Defined.

(** C6, as stated, fails on a status that is neither a success nor an error
    for [raise_for_status]: [star_repository], answered with 304 (not a 2xx
    status), returns a value. *)
Lemma star_repository_returns_on_304 :
  ~ (200 <= status_code (Example.reply 304 "Not Modified" None) < 300) /\
  outcome (run (GitHub.handler (H := Example.builtins) (GitHub.StarRepository "octo/demo"))
             (Example.always (Responded (Example.reply 304 "Not Modified" None))) 0
             (Example.authorized "gho_1"))
  = inr (PDict [("message", PStr "Failed to star repository.")]).
Proof. split; [cbn; lia|]. vm_compute. reflexivity. Qed.

Lemma repository_owner_inconsistent_witness :
  let srv := Example.always (Responded (Example.reply 200 "OK" (Some (PDict [])))) in
  let w := Example.authorized "gho_1" in
  first_url (run (GitHub.get_issue (H := Example.builtins) "demo" 7) srv 0 w)
    = Some "https://api.github.com/repos/demo/issues/7" /\
  first_url (run (GitHub.update_issue (H := Example.builtins) "demo" 7 None None
                    (Some "closed") None) srv 0 w)
    = Some "https://api.github.com/repos/Fugaret/demo/issues/7".
Proof.
  cbv zeta.
  pose proof (repository_owner_inconsistent (H := Example.builtins)
                (Example.always (Responded (Example.reply 200 "OK" (Some (PDict [])))))
                0%nat (Example.authorized "gho_1") "demo" 7 "title" None None
                None None (Some "closed") None eq_refl) as (_ & Hget & Hupd & _ & _).
  split; [exact Hget | exact Hupd].
Defined.

(** *** The broker theorems at concrete inputs *)

(** C1 at the failing input: from empty dictionaries, the callback
    [/github/get-token?code=abc], answered by GitHub with a token and by the
    durable backend with 200, succeeds and stores the token in the
    dictionary of [hackathon_utils]; [create_issue] run afterwards still
    raises the missing-token error. *)
Lemma exchange_then_create_issue_is_rejected :
  let srv :=
    Example.script
      [Responded (Example.reply 200 "OK" (Some (PDict [("access_token", PStr "gho_1")])));
       Responded (Example.reply 200 "OK" None)] in
  let r :=
    run (Broker.get_github_token (H := Example.builtins) Example.base_hackathon_settings
           Example.github_auth_settings (Some "abc") None) srv 0 Example.fresh in
  outcome r
    = inr {| jr_status_code := 200;
             jr_content := PDict [("message",
                                   PStr "Authorization successful and data saved.")] |} /\
  hackathon_utils_store (final r) !! "GitHub" = Some {[ "access_token" := PStr "gho_1" ]} /\
  run (GitHub.handler (H := Example.builtins)
         (GitHub.CreateIssue "octo/demo" "title" None None))
      (Example.always (Responded (Example.reply 201 "Created" (Some (PDict []))))) 0
      (final r)
  = {| final := final r; trace := [];
       outcome := inl (ValueError "Authorization token for GitHub is missing.") |}.
Proof.
  cbv zeta. split; [vm_compute; reflexivity|]. split; [vm_compute; reflexivity|].
  apply (exchange_invisible_to_handlers (H := Example.builtins)). reflexivity.
Defined.

Lemma persist_failure_leaves_store_witness :
  let r :=
    run (Broker.save_authorization_data_and_return_response (H := Example.builtins)
           Example.base_hackathon_settings (PDict [("access_token", PStr "gho_1")])
           "GitHub")
        (Example.always (Responded (Example.reply 500 "Internal Server Error" None)))
        0 Example.fresh in
  final r = Example.fresh /\
  writes_of (trace r) = [] /\
  exists status detail,
    outcome r = inl (HTTPException status detail) /\ 400 <= status < 600.
Proof.
  cbv zeta.
  apply (persist_failure_leaves_store (H := Example.builtins)).
  right. exists (Example.reply 500 "Internal Server Error" None).
  split; [reflexivity|]. cbn. lia.
Defined.

(** C2, as stated, fails on a status that is not 2xx and on which
    [raise_for_status] does not raise: with 304 the token is written. *)
Lemma persist_writes_on_304 :
  let r :=
    run (Broker.save_authorization_data_and_return_response (H := Example.builtins)
           Example.base_hackathon_settings (PDict [("access_token", PStr "gho_1")])
           "GitHub")
        (Example.always (Responded (Example.reply 304 "Not Modified" None)))
        0 Example.fresh in
  ~ (200 <= status_code (Example.reply 304 "Not Modified" None) < 300) /\
  hackathon_utils_store Example.fresh !! "GitHub" = None /\
  hackathon_utils_store (final r) !! "GitHub" = Some {[ "access_token" := PStr "gho_1" ]} /\
  outcome r
    = inr {| jr_status_code := 304;
             jr_content := PDict [("message", PStr "Unexpected response: 304")] |}.
Proof.
  cbv zeta. split; [cbn; lia|]. split; [reflexivity|].
  split; vm_compute; reflexivity.
Qed.

(** C4, as stated, fails on the GitHub endpoint: [invalid_application_status]
    with no code ends with 400, not 500; and [invalid_scope] together with a
    code goes on to the token exchange and to the write. *)
Lemma github_callback_ignores_other_errors :
  let srv :=
    Example.script
      [Responded (Example.reply 200 "OK" (Some (PDict [("access_token", PStr "gho_1")])));
       Responded (Example.reply 200 "OK" None)] in
  let get_github_token :=
    Broker.get_github_token (H := Example.builtins) Example.base_hackathon_settings
      Example.github_auth_settings in
  outcome (run (get_github_token None (Some "invalid_application_status")) srv 0
             Example.fresh)
    = inl (HTTPException 400 "Authorization code is missing") /\
  first_url (run (get_github_token (Some "abc") (Some "invalid_scope")) srv 0
               Example.fresh)
    = Some "https://github.com/login/oauth/access_token" /\
  hackathon_utils_store
    (final (run (get_github_token (Some "abc") (Some "invalid_scope")) srv 0
              Example.fresh)) !! "GitHub"
    = Some {[ "access_token" := PStr "gho_1" ]}.
Proof. cbv zeta. repeat split; vm_compute; reflexivity. Qed.

Lemma no_access_token_is_rejected_witness :
  let payload := [("error", PStr "bad_verification_code")] in
  let r :=
    run (Broker.save_authorization_data_and_return_response (H := Example.builtins)
           Example.base_hackathon_settings (PDict payload) "GitHub")
        (Example.always (Responded (Example.reply 200 "OK" None))) 0 Example.fresh in
  final r = Example.fresh /\
  outcome r = inl (ValueError "No access token found in authorization_data_response").
Proof.
  cbv zeta.
  destruct (no_access_token_is_rejected (H := Example.builtins)
              Example.base_hackathon_settings [("error", PStr "bad_verification_code")]
              "GitHub" (Example.always (Responded (Example.reply 200 "OK" None))) 0%nat
              Example.fresh eq_refl) as [Hfinal Hout].
  split; [exact Hfinal|].
  apply (Hout (Example.reply 200 "OK" None)); [reflexivity|]. cbn. lia.
Defined.

(** C5, as stated, fails when the durable backend does not take the POST:
    the attempt then ends with the error of the persist step, and "No access
    token found" is never raised. *)
Lemma malformed_payload_with_backend_down :
  outcome
    (run (Broker.save_authorization_data_and_return_response (H := Example.builtins)
            Example.base_hackathon_settings
            (PDict [("error", PStr "bad_verification_code")]) "GitHub")
         (Example.always (Responded (Example.reply 500 "Internal Server Error" None)))
         0 Example.fresh)
  = inl (HTTPException 502 "Server error while saving authorization data").
Proof. vm_compute. reflexivity. Qed.

(** C9, as stated, fails on a payload that is not an object: the JSON
    [null], taken by the backend with 200, has been sent when the attempt
    fails, but the failure is the [TypeError] of ['access_token' in None],
    not "No access token found". *)
Lemma null_payload_ends_in_type_error :
  let r :=
    run (Broker.save_authorization_data_and_return_response (H := Example.builtins)
           Example.base_hackathon_settings PNone "GitHub")
        (Example.always (Responded (Example.reply 200 "OK" None))) 0 Example.fresh in
  requests_of (trace r)
    = [save_request (H := Example.builtins) Example.base_hackathon_settings PNone
         "GitHub"] /\
  outcome r = inl TypeError /\
  outcome r <> inl (ValueError "No access token found in authorization_data_response").
Proof. cbv zeta. split; [reflexivity|]. split; [reflexivity|discriminate]. Qed.

Lemma persist_supersedes_entry_witness :
  let w :=
    {| hackathon_utils_store :=
         {[ "GitHub" := {[ "access_token" := PStr "old"; "scope" := PStr "repo" ]};
            "Todoist" := {[ "access_token" := PStr "td_1" ]} ]};
       actions_store := ∅ |} in
  let r :=
    run (Broker.save_authorization_data_and_return_response (H := Example.builtins)
           Example.base_hackathon_settings
           (PDict [("access_token", PStr "gho_2"); ("scope", PStr "repo,user")])
           "GitHub")
        (Example.always (Responded (Example.reply 200 "OK" None))) 0 w in
  hackathon_utils_store (final r) !! "GitHub" = Some {[ "access_token" := PStr "gho_2" ]} /\
  hackathon_utils_store (final r) !! "Todoist" = Some {[ "access_token" := PStr "td_1" ]} /\
  writes_of (trace r)
    = [(hackathon_utils_authorization_data, "GitHub", {[ "access_token" := PStr "gho_2" ]})].
Proof.
  cbv zeta.
  match goal with
  | |- context [run ?p ?srv ?n ?w] =>
      destruct (persist_supersedes_entry (H := Example.builtins)
                  Example.base_hackathon_settings
                  [("access_token", PStr "gho_2"); ("scope", PStr "repo,user")]
                  (PStr "gho_2") "GitHub" srv n w (Example.reply 200 "OK" None))
        as (Hs & Hother & _ & Hwrites)
  end.
  - reflexivity.
  - cbn. lia.
  - reflexivity.
  - split; [exact Hs|]. split; [|exact Hwrites].
    rewrite (Hother "Todoist") by discriminate. reflexivity.
Defined.

Lemma malformed_payload_is_sent_before_validation_witness :
  let payload := PDict [("error", PStr "bad_verification_code")] in
  let r :=
    run (Broker.save_authorization_data_and_return_response (H := Example.builtins)
           Example.base_hackathon_settings payload "GitHub")
        (Example.always (Responded (Example.reply 200 "OK" None))) 0 Example.fresh in
  requests_of (trace r)
    = [save_request (H := Example.builtins) Example.base_hackathon_settings payload
         "GitHub"] /\
  outcome r = inl (ValueError "No access token found in authorization_data_response") /\
  final r = Example.fresh.
Proof.
  cbv zeta.
  destruct (malformed_payload_is_sent_before_validation (H := Example.builtins)
              Example.base_hackathon_settings [("error", PStr "bad_verification_code")]
              "GitHub" (Example.always (Responded (Example.reply 200 "OK" None))) 0%nat
              Example.fresh (Example.reply 200 "OK" None) eq_refl eq_refl)
    as [-> _]; [cbn; lia|].
  repeat split.
Defined.

(** * Further properties *)

(** ** What every handler does and never does *)

Section HandlerDiscipline.
Context `{PyBuiltins}.

Lemma disciplined_leaf {A} Q k (p : prog A) : leaf p -> disciplined Q k p.
Proof. destruct p; cbn; done. Qed.

Lemma disciplined_leaf_bind {A B} Q k (p : prog A) (f : A -> prog B) :
  leaf p -> (forall a, disciplined Q k (f a)) -> disciplined Q k (bind p f).
Proof. destruct p; cbn; try done; intros _ Hf; apply Hf. Qed.

Lemma disciplined_call {A} (Q : request -> Prop) k r (f : response -> prog A) :
  Q r -> (forall resp, disciplined Q k (f resp)) ->
  disciplined Q (S k) (bind (requests_call r) f).
Proof. intros Hr Hf. cbn. split; [done|]. split; [done|]. apply Hf. Qed.

Lemma leaf_raise_for_status (resp : response) : leaf (raise_for_status resp).
Proof. unfold raise_for_status. by destruct (http_error_msg resp). Qed.

Lemma leaf_response_json (resp : response) : leaf (response_json resp).
Proof. unfold response_json. by destruct (resp_json resp). Qed.

Lemma leaf_py_getitem (v : pyval) (k : string) : leaf (py_getitem v k).
Proof. destruct v; cbn; try done. by destruct (dict_lookup k d). Qed.

Lemma leaf_lift {A} (x : exn + A) : leaf (lift x).
Proof. by destruct x. Qed.

Ltac leaf_fact :=
  first [ apply leaf_raise_for_status | apply leaf_response_json
        | apply leaf_py_getitem | apply leaf_lift | exact I ].

Ltac discipline :=
  cbv beta;
  lazymatch goal with
  | |- disciplined _ _ (if ?b then _ else _) => destruct b; discipline
  | |- disciplined _ (S _) (bind _ _) =>
      first [ apply disciplined_leaf_bind; [leaf_fact | intros; discipline]
            | apply disciplined_call;
              [split; reflexivity | intros; discipline] ]
  | |- disciplined _ _ (bind _ _) =>
      apply disciplined_leaf_bind; [leaf_fact | intros; discipline]
  | |- disciplined _ _ _ => apply disciplined_leaf; leaf_fact
  end.

(** Every handler is the token lookup followed by a disciplined body that
    begins with a request. *)
Lemma handler_body (c : GitHub.call) :
  exists f,
    GitHub.handler c = bind GitHub.github_token f /\
    forall tok,
      disciplined (authenticated tok) (request_budget c) (f tok) /\
      exists r k, f tok = Request r k.
Proof.
  destruct c; eexists; (split; [reflexivity|]); intros tok;
    (split; [cbn [request_budget]; discipline | by do 2 eexists]).
Qed.

Lemma disciplined_run {A} Q k (p : prog A) srv n w :
  disciplined Q k p ->
  final (run p srv n w) = w /\
  trace (run p srv n w) = map EvRequest (requests_of (trace (run p srv n w))) /\
  Forall Q (requests_of (trace (run p srv n w))) /\
  (nreq (run p srv n w) <= k)%nat.
Proof.
  revert k n.
  induction p as [a|e|r c IH|g c IH|g key v c IH|l x c IH]; intros k n Hd;
    cbn in Hd; try done.
  - unfold nreq. cbn. repeat split; [constructor|lia].
  - unfold nreq. cbn. repeat split; [constructor|lia].
  - destruct k as [|k]; [done|]. destruct Hd as (Hq & Hfail & Hresp).
    assert (Hc : disciplined Q k (c (srv n r))).
    { destruct (srv n r) as [kind|resp]; [by rewrite Hfail|apply Hresp]. }
    destruct (IH (srv n r) k (S n) Hc) as (Hw & Htr & Hall & Hn).
    unfold nreq, requests_of in *. cbn in *.
    split; [done|]. split; [by f_equal|]. split; [by constructor|lia].
Qed.

Lemma disciplined_run_indep {A} Q k (p : prog A) srv n w w' :
  disciplined Q k p ->
  trace (run p srv n w) = trace (run p srv n w') /\
  outcome (run p srv n w) = outcome (run p srv n w').
Proof.
  revert k n.
  induction p as [a|e|r c IH|g c IH|g key v c IH|l x c IH]; intros k n Hd;
    cbn in Hd; try done.
  destruct k as [|k]; [done|]. destruct Hd as (Hq & Hfail & Hresp).
  assert (Hc : disciplined Q k (c (srv n r))).
  { destruct (srv n r) as [kind|resp]; [by rewrite Hfail|apply Hresp]. }
  destruct (IH (srv n r) k (S n) Hc) as [Htr Hout]. cbn. by rewrite Htr, Hout.
Qed.

Lemma disciplined_transport {A} Q k (p : prog A) srv n w i req kind :
  disciplined Q k p ->
  requests_of (trace (run p srv n w)) !! i = Some req ->
  srv (n + i)%nat req = Failed kind ->
  outcome (run p srv n w) = inl (RequestException kind) /\
  nreq (run p srv n w) = S i.
Proof.
  revert k n i.
  induction p as [a|e|r c IH|g c IH|g key v c IH|l x c IH]; intros k n i Hd Hi Hsrv;
    cbn in Hd; try done.
  destruct k as [|k]; [done|]. destruct Hd as (Hq & Hfail & Hresp).
  unfold nreq, requests_of in *. cbn in Hi |- *.
  destruct i as [|i]; cbn in Hi.
  - injection Hi as ->. rewrite Nat.add_0_r in Hsrv. rewrite Hsrv, Hfail. by cbn.
  - rewrite Nat.add_succ_r in Hsrv.
    assert (Hc : disciplined Q k (c (srv n r))).
    { destruct (srv n r) as [kind'|resp]; [by rewrite Hfail|apply Hresp]. }
    destruct (IH (srv n r) k (S n) i Hc Hi Hsrv) as [Hout Hn].
    split; [done|]. by f_equal.
Qed.

End HandlerDiscipline.

Section HandlerTheorems.
Context `{PyBuiltins}.

(** X1: a handler never touches a dictionary and never prints: whatever
    the arguments, the server and the world, the world after the run is the
    world before it and the trace consists of outbound requests only. *)
Theorem handlers_only_send_requests (c : GitHub.call) srv n w :
  final (run (GitHub.handler c) srv n w) = w /\
  trace (run (GitHub.handler c) srv n w)
    = map EvRequest (requests_of (trace (run (GitHub.handler c) srv n w))).
Proof.
  destruct (handler_body c) as (f & -> & Hf).
  destruct (py_bool (stored_token w)) eqn:Htok.
  - rewrite github_token_truthy by done.
    destruct (Hf (stored_token w)) as [Hd _].
    by destruct (disciplined_run _ _ _ srv n w Hd) as (? & ? & _).
  - by rewrite github_token_falsy.
Qed.

(** X2: every request a handler sends carries the header
    [Authorization: Bearer <token>] built from the token stored for
    "GitHub", the header [Accept: application/vnd.github+json] and nothing
    else, and goes to a URL under [https://api.github.com/]. *)
Theorem handler_requests_are_authenticated (c : GitHub.call) srv n w :
  Forall (authenticated (stored_token w))
    (requests_of (trace (run (GitHub.handler c) srv n w))).
Proof.
  destruct (handler_body c) as (f & -> & Hf).
  destruct (py_bool (stored_token w)) eqn:Htok.
  - rewrite github_token_truthy by done.
    destruct (Hf (stored_token w)) as [Hd _].
    by destruct (disciplined_run _ _ _ srv n w Hd) as (_ & _ & ? & _).
  - rewrite github_token_falsy by done. constructor.
Qed.


(** X4: when a request of a handler fails at transport level (connection
    error, timeout, ...), the handler raises that [RequestException]
    unchanged and sends nothing after it. *)
Theorem handler_reraises_transport_failure (c : GitHub.call) srv w i req kind :
  requests_of (trace (run (GitHub.handler c) srv 0 w)) !! i = Some req ->
  srv i req = Failed kind ->
  outcome (run (GitHub.handler c) srv 0 w) = inl (RequestException kind) /\
  nreq (run (GitHub.handler c) srv 0 w) = S i.
Proof.
  destruct (handler_body c) as (f & -> & Hf).
  destruct (py_bool (stored_token w)) eqn:Htok.
  - rewrite github_token_truthy by done.
    destruct (Hf (stored_token w)) as [Hd _]. intros Hi Hsrv.
    by apply (disciplined_transport _ _ _ srv 0%nat w i req kind Hd).
  - by rewrite github_token_falsy.
Qed.

(** X5: the run of a handler depends on the world through the stored
    GitHub token only: two worlds with the same token give the same
    requests and the same outcome (in particular the dictionary of
    [hackathon_utils] plays no role). *)
Theorem handler_reads_only_the_token (c : GitHub.call) srv n w w' :
  stored_token w = stored_token w' ->
  trace (run (GitHub.handler c) srv n w) = trace (run (GitHub.handler c) srv n w') /\
  outcome (run (GitHub.handler c) srv n w) = outcome (run (GitHub.handler c) srv n w').
Proof.
  intros Hsame. destruct (handler_body c) as (f & -> & Hf).
  destruct (py_bool (stored_token w)) eqn:Htok.
  - rewrite !github_token_truthy by congruence. rewrite <- Hsame.
    destruct (Hf (stored_token w)) as [Hd _].
    apply (disciplined_run_indep _ _ _ srv n w w' Hd).
  - by rewrite !github_token_falsy by congruence.
Qed.

End HandlerTheorems.

(** ** Results of single handlers *)

Section HandlerResults.
Context `{PyBuiltins}.

Ltac unfold_handlers :=
  cbn [GitHub.handler];
  unfold GitHub.create_issue, GitHub.create_repository, GitHub.delete_repository,
    GitHub.get_issue, GitHub.update_issue, GitHub.close_issue, GitHub.list_issues,
    GitHub.get_repository_info, GitHub.star_repository, GitHub.unstar_repository,
    GitHub.list_branches, GitHub.create_branch, GitHub.delete_branch,
    GitHub.get_file_content, GitHub.create_file, GitHub.update_file,
    GitHub.delete_file, GitHub.create_pull_request, GitHub.list_pull_requests,
    GitHub.merge_pull_request, GitHub.close_pull_request.

(** Run a handler up to the answer to its first request. *)
Ltac first_answer Htok Hsrv :=
  unfold_handlers; rewrite ?github_token_truthy by exact Htok;
  cbn [requests_get requests_post requests_put requests_patch requests_delete
       requests_call bind run];
  rewrite ?Hsrv; cbn [bind run].

(** Go past [raise_for_status] on a response without error status. *)
Ltac accepted Hok :=
  unfold raise_for_status; rewrite ?(proj2 (no_error_msg _) Hok); cbn [bind run].





End HandlerResults.

Section FileHandlers.
Context `{PyBuiltins}.

Ltac after_token Htok Hsrv :=
  rewrite ?github_token_truthy by exact Htok;
  cbn [requests_get requests_put requests_delete requests_call bind run];
  rewrite ?Hsrv; cbn [bind run].

Ltac past_status Hok :=
  unfold raise_for_status; rewrite ?(proj2 (no_error_msg _) Hok); cbn [bind run].



(** X12: [close_issue] is [update_issue] with only [state="closed"] given:
    the two are the same program (same PATCH, same URL under
    [repos/Fugaret/], same body). *)
Theorem close_issue_is_update_issue (repo : string) (issue_number : Z) :
  GitHub.close_issue repo issue_number
    = GitHub.update_issue repo issue_number None None (Some "closed") None.
Proof. reflexivity. Qed.

End FileHandlers.

(** ** More on the persist step *)

Section PersistFurther.
Context `{PyBuiltins}.
Variable settings : BaseHackathonSettings.

Abbreviation persist := (Broker.save_authorization_data_and_return_response settings).

Ltac answered payload s Hsrv :=
  unfold Broker.save_authorization_data_and_return_response;
  cbn [requests_post requests_call bind try_except run];
  fold (save_request settings payload s);
  rewrite ?Hsrv; cbn [bind try_except run].

(** The persist step in full, by what the backend answers. *)
Lemma persist_cases payload s srv n w :
  let req := save_request settings payload s in
  let r := run (persist payload s) srv n w in
  requests_of (trace r) = [req] /\
  match srv n req with
  | Failed _ => final r = w /\ exists e, outcome r = inl e
  | Responded resp =>
      match http_error_msg resp with
      | Some _ => final r = w /\ exists e, outcome r = inl e
      | None =>
          match payload with
          | PDict d =>
              match dict_lookup "access_token" d with
              | Some t =>
                  final r = set_item hackathon_utils_authorization_data s
                              {[ "access_token" := t ]} w /\
                  exists ack, outcome r = inr ack /\
                              jr_status_code ack = status_code resp
              | None =>
                  final r = w /\
                  outcome r = inl (ValueError Broker.no_access_token_message)
              end
          | _ =>
              final r = w /\
              (outcome r = inl TypeError \/
               outcome r = inl (ValueError Broker.no_access_token_message))
          end
      end
  end.
Proof.
  cbv zeta.
  destruct (srv n (save_request settings payload s)) as [kind|resp] eqn:Hsrv.
  { answered payload s Hsrv. cbn. split; [done|]. split; [done|by eexists]. }
  answered payload s Hsrv. unfold raise_for_status.
  destruct (http_error_msg resp) as [msg|];
    cbn [bind try_except run Broker.save_except].
  { repeat match goal with
      | |- context [if ?b then _ else _] => destruct b
      end; cbn; (split; [done|]); (split; [done|by eexists]). }
  destruct payload as [|b|z|f|s0|l|d]; cbn [py_contains py_getitem bind try_except run];
    try (cbn; split; [done|]; split; [done|by left]).
  - destruct (bool_decide _); cbn; (split; [done|]); (split; [done|]); [by left|by right].
  - destruct (existsb _ l); cbn; (split; [done|]); (split; [done|]); [by left|by right].
  - destruct (dict_lookup "access_token" d) as [t|] eqn:Hd.
    + rewrite bool_decide_eq_true_2 by (by eexists).
      cbn [bind try_except run py_getitem].
      destruct (status_code resp =? 200) eqn:Hst; cbn;
        (split; [done|]); (split; [done|]); eexists; (split; [done|]); cbn; [|done].
      symmetry. by apply Z.eqb_eq.
    + rewrite bool_decide_eq_false_2 by (by intros [? ?]). cbn. done.
Qed.

(** X13: how a refusal of the durable backend is reported: 400, 401, 403
    and 404 are passed on with a message of their own, every 5xx becomes
    502, and any other 4xx (409, 429, ...) becomes 500 with the text of the
    [HTTPError]. *)
Theorem persist_error_status_mapping payload s srv n w resp msg :
  srv n (save_request settings payload s) = Responded resp ->
  http_error_msg resp = Some msg ->
  (status_code resp = 400 ->
     outcome (run (persist payload s) srv n w)
       = inl (HTTPException 400 "Bad request to save authorization data")) /\
  (status_code resp = 401 ->
     outcome (run (persist payload s) srv n w)
       = inl (HTTPException 401 "Unauthorized to save authorization data")) /\
  (status_code resp = 403 ->
     outcome (run (persist payload s) srv n w)
       = inl (HTTPException 403 "Forbidden to save authorization data")) /\
  (status_code resp = 404 ->
     outcome (run (persist payload s) srv n w)
       = inl (HTTPException 404 "Endpoint to save authorization data not found")) /\
  (500 <= status_code resp ->
     outcome (run (persist payload s) srv n w)
       = inl (HTTPException 502 "Server error while saving authorization data")) /\
  (status_code resp < 500 -> status_code resp <> 400 -> status_code resp <> 401 ->
   status_code resp <> 403 -> status_code resp <> 404 ->
     outcome (run (persist payload s) srv n w)
       = inl (HTTPException 500 ("Unexpected error: " +:+ msg))).
Proof.
  intros Hsrv Hmsg. answered payload s Hsrv.
  unfold raise_for_status. rewrite Hmsg. cbn [bind try_except run Broker.save_except].
  rewrite Z.geb_leb.
  repeat split; intros;
    repeat match goal with
      | |- context [Z.eqb ?a ?b] => destruct (Z.eqb_spec a b); try lia
      end;
    destruct (Z.leb_spec 500 (status_code resp)); try lia; reflexivity.
Qed.

(** X14: whatever the payload and whatever the backend answers, the persist
    step sends exactly one request, the POST to the durable backend: there
    is no retry and no second call. *)
Theorem persist_sends_one_request payload s srv n w :
  requests_of (trace (run (persist payload s) srv n w))
    = [save_request settings payload s].
Proof. by destruct (persist_cases payload s srv n w) as [Hreq _]. Qed.

(** X15: what the caller gets after the token has been stored: the
    success message on 200 only; on any other status without error (201,
    204, 3xx, ...) a response with that status and "Unexpected response". *)
Theorem persist_answer (d : list (string * pyval)) (t : pyval) s srv n w resp :
  srv n (save_request settings (PDict d) s) = Responded resp ->
  ~ error_status resp ->
  dict_lookup "access_token" d = Some t ->
  (status_code resp = 200 ->
     outcome (run (persist (PDict d) s) srv n w)
       = inr {| jr_status_code := 200;
                jr_content := PDict [("message",
                                      PStr "Authorization successful and data saved.")] |}) /\
  (status_code resp <> 200 ->
     outcome (run (persist (PDict d) s) srv n w)
       = inr {| jr_status_code := status_code resp;
                jr_content := PDict [("message",
                                      PStr ("Unexpected response: "
                                            +:+ pretty (status_code resp)))] |}).
Proof.
  intros Hsrv Hok Hsome. answered (PDict d) s Hsrv.
  apply no_error_msg in Hok. unfold raise_for_status. rewrite Hok.
  cbn [bind try_except run py_contains py_getitem]. rewrite Hsome.
  rewrite bool_decide_eq_true_2 by (by eexists). cbn [bind try_except run].
  destruct (Z.eqb_spec (status_code resp) 200); by split.
Qed.

(** X16: the persist step returns a response (rather than raising) only
    after it has stored the token: the payload then is an object with an
    "access_token", the backend has answered without error status, and the
    broker's dictionary maps the system name to that token. *)
Theorem persist_returns_only_after_storing payload s srv n w ack :
  outcome (run (persist payload s) srv n w) = inr ack ->
  exists d t resp,
    payload = PDict d /\
    dict_lookup "access_token" d = Some t /\
    srv n (save_request settings payload s) = Responded resp /\
    ~ error_status resp /\
    jr_status_code ack = status_code resp /\
    hackathon_utils_store (final (run (persist payload s) srv n w)) !! s
      = Some {[ "access_token" := t ]}.
Proof.
  intros Hack. destruct (persist_cases payload s srv n w) as [_ Hcases].
  cbv zeta in Hcases.
  destruct (srv n (save_request settings payload s)) as [kind|resp].
  { destruct Hcases as (_ & e & He). congruence. }
  destruct (http_error_msg resp) as [msg|] eqn:Hmsg.
  { destruct Hcases as (_ & e & He). congruence. }
  apply no_error_msg in Hmsg.
  destruct payload as [|b|z|f|s0|l|d];
    try (destruct Hcases as (_ & [He | He]); congruence).
  destruct (dict_lookup "access_token" d) as [t|] eqn:Hd.
  - destruct Hcases as (-> & ack' & Hout & Hst).
    exists d, t, resp. rewrite Hack in Hout. injection Hout as <-.
    repeat split; try done. cbn. apply lookup_insert_eq.
  - destruct Hcases as (_ & He). congruence.
Qed.

(** X17: a payload that is not a JSON object is never stored: once the
    backend has taken the POST the attempt ends in a [TypeError] (a scalar;
    a list or a string that holds "access_token", which passes the [in]
    test and fails the subscript) or in the "No access token" error. *)
Theorem persist_rejects_non_object payload s srv n w resp :
  (forall d, payload <> PDict d) ->
  srv n (save_request settings payload s) = Responded resp ->
  ~ error_status resp ->
  final (run (persist payload s) srv n w) = w /\
  (outcome (run (persist payload s) srv n w) = inl TypeError \/
   outcome (run (persist payload s) srv n w)
     = inl (ValueError "No access token found in authorization_data_response")).
Proof.
  intros Hnot Hsrv Hok. destruct (persist_cases payload s srv n w) as [_ Hcases].
  cbv zeta in Hcases. rewrite Hsrv in Hcases.
  apply no_error_msg in Hok. rewrite Hok in Hcases.
  destruct payload as [|b|z|f|s0|l|d]; try exact Hcases.
  by destruct (Hnot d).
Qed.

(** X18: two persists for the same system, one after the other: the
    broker's dictionary ends as if only the second had happened. *)
Theorem persist_twice_last_wins (d1 d2 : list (string * pyval)) (t1 t2 : pyval) s
    srv1 n1 srv2 n2 w resp1 resp2 :
  srv1 n1 (save_request settings (PDict d1) s) = Responded resp1 ->
  ~ error_status resp1 ->
  dict_lookup "access_token" d1 = Some t1 ->
  srv2 n2 (save_request settings (PDict d2) s) = Responded resp2 ->
  ~ error_status resp2 ->
  dict_lookup "access_token" d2 = Some t2 ->
  final (run (persist (PDict d2) s) srv2 n2
           (final (run (persist (PDict d1) s) srv1 n1 w)))
    = final (run (persist (PDict d2) s) srv2 n2 w).
Proof.
  intros Hsrv1 Hok1 Hd1 Hsrv2 Hok2 Hd2.
  destruct (save_with_token settings d1 t1 s srv1 n1 w resp1 Hsrv1 Hok1 Hd1)
    as (ack1 & -> & _).
  cbn [final].
  destruct (save_with_token settings d2 t2 s srv2 n2
              (set_item hackathon_utils_authorization_data s
                 {[ "access_token" := t1 ]} w) resp2 Hsrv2 Hok2 Hd2)
    as (ack3 & -> & _).
  destruct (save_with_token settings d2 t2 s srv2 n2 w resp2 Hsrv2 Hok2 Hd2)
    as (ack2 & -> & _).
  cbn. f_equal. apply insert_insert_eq.
Qed.

End PersistFurther.

(** ** More on the callback endpoints *)

Section EndpointFurther.
Context `{PyBuiltins}.
Variable settings : BaseHackathonSettings.
Variable github_settings : GitHubAuthSettings.
Variable todoist_callback : option string -> option string -> option string -> prog pyval.

Abbreviation persist := (Broker.save_authorization_data_and_return_response settings).
Abbreviation get_todoist_token := (Broker.get_todoist_token settings todoist_callback).
Abbreviation get_github_token := (Broker.get_github_token settings github_settings).

Lemma not_access_denied (error : option string) :
  error <> Some "access_denied" -> bool_decide (error = Some "access_denied") = false.
Proof. intros Hne. by apply bool_decide_eq_false_2. Qed.

Lemma code_present (c : string) : c <> "" -> Broker.code_missing (Some c) = false.
Proof.
  intros Hc. unfold Broker.code_missing. cbn.
  destruct (String.eqb_spec c ""); [done|reflexivity].
Qed.

Ltac exchange Herr Hcode :=
  unfold Broker.get_github_token;
  rewrite (not_access_denied _ Herr), (code_present _ Hcode);
  cbn [requests_post requests_call bind run];
  match goal with
  | |- context [mk_request POST "https://github.com/login/oauth/access_token"
                  ?h None None ?d] =>
      change (mk_request POST "https://github.com/login/oauth/access_token" h None None d)
        with (exchange_request github_settings
                (Some ltac:(match type of Hcode with ?c <> _ => exact c end)))
  end.

(** X19: the GitHub callback without a code (absent or empty), and without
    [error=access_denied], is refused with 400 before anything is sent or
    written. *)
Theorem github_callback_without_code (code error : option string) srv n w :
  error <> Some "access_denied" ->
  code = None \/ code = Some "" ->
  run (get_github_token code error) srv n w
    = {| final := w; trace := [];
         outcome := inl (HTTPException 400 "Authorization code is missing") |}.
Proof.
  intros Herr Hcode. unfold Broker.get_github_token.
  rewrite (not_access_denied _ Herr). by destruct Hcode as [-> | ->].
Qed.

(** X20: when the token exchange with GitHub fails, the persist step is
    never started: the exchange is the only request, nothing is written,
    and the exception of the exchange reaches the caller as it is (the
    transport error, the [HTTPError] of a 4xx/5xx answer, or
    [JSONDecodeError] for a body that is not JSON). *)
Theorem failed_exchange_skips_persist (c : string) (error : option string) srv n w :
  error <> Some "access_denied" ->
  c <> "" ->
  (forall kind,
     srv n (exchange_request github_settings (Some c)) = Failed kind ->
     run (get_github_token (Some c) error) srv n w
       = {| final := w; trace := [EvRequest (exchange_request github_settings (Some c))];
            outcome := inl (RequestException kind) |}) /\
  (forall resp msg,
     srv n (exchange_request github_settings (Some c)) = Responded resp ->
     http_error_msg resp = Some msg ->
     run (get_github_token (Some c) error) srv n w
       = {| final := w; trace := [EvRequest (exchange_request github_settings (Some c))];
            outcome := inl (HTTPError msg resp) |}) /\
  (forall resp,
     srv n (exchange_request github_settings (Some c)) = Responded resp ->
     ~ error_status resp ->
     resp_json resp = None ->
     run (get_github_token (Some c) error) srv n w
       = {| final := w; trace := [EvRequest (exchange_request github_settings (Some c))];
            outcome := inl JSONDecodeError |}).
Proof.
  intros Herr Hcode. repeat split.
  - intros kind Hsrv. exchange Herr Hcode. by rewrite Hsrv.
  - intros resp msg Hsrv Hmsg. exchange Herr Hcode. rewrite Hsrv. cbn [bind run].
    unfold raise_for_status. by rewrite Hmsg.
  - intros resp Hsrv Hok Hjson. exchange Herr Hcode. rewrite Hsrv. cbn [bind run].
    unfold raise_for_status. rewrite (proj2 (no_error_msg _) Hok). cbn [bind run].
    unfold response_json. by rewrite Hjson.
Qed.


(** X22: on the Todoist endpoint an error code other than the three it
    rejects is handed to [todoist.callback]. If the callback raises, the
    endpoint raises the same exception and does nothing more (no persist);
    if it returns a payload, the endpoint continues with the persist step
    on that payload under the system name "Todoist". *)
Theorem todoist_callback_then_persist (code state error : option string) srv n w :
  ~ todoist_rejects error ->
  (forall e,
     outcome (run (todoist_callback code state error) srv n w) = inl e ->
     run (get_todoist_token code state error) srv n w
       = {| final := final (run (todoist_callback code state error) srv n w);
            trace := trace (run (todoist_callback code state error) srv n w);
            outcome := inl e |}) /\
  (forall payload,
     outcome (run (todoist_callback code state error) srv n w) = inr payload ->
     outcome (run (get_todoist_token code state error) srv n w)
       = outcome (run (persist payload "Todoist") srv
                    (n + nreq (run (todoist_callback code state error) srv n w))%nat
                    (final (run (todoist_callback code state error) srv n w)))).
Proof.
  intros Hnot. unfold todoist_rejects in Hnot.
  unfold Broker.get_todoist_token.
  rewrite !bool_decide_eq_false_2 by tauto.
  rewrite run_bind. split.
  - intros e ->. reflexivity.
  - intros payload ->. reflexivity.
Qed.

End EndpointFurther.

(** ** The further properties at concrete inputs *)

Lemma handler_reraises_transport_failure_witness :
  let r := run (GitHub.handler (H := Example.builtins) (GitHub.GetIssue "octo/demo" 7))
             (Example.always (Failed "ConnectionError")) 0 (Example.authorized "gho_1") in
  outcome r = inl (RequestException "ConnectionError") /\ nreq r = 1%nat.
Proof.
  cbv zeta.
  eapply (handler_reraises_transport_failure (H := Example.builtins)
            (GitHub.GetIssue "octo/demo" 7) (Example.always (Failed "ConnectionError"))
            (Example.authorized "gho_1") 0%nat).
  - vm_compute. reflexivity.
  - reflexivity.
Defined.

Lemma handler_reads_only_the_token_witness :
  let w' :=
    {| hackathon_utils_store := {[ "GitHub" := {[ "access_token" := PStr "other" ]} ]};
       actions_store := {[ "GitHub" := {[ "access_token" := PStr "gho_1" ]} ]} |} in
  let srv := Example.always (Responded (Example.reply 200 "OK" (Some (PList [])))) in
  let c := GitHub.ListBranches "octo/demo" in
  trace (run (GitHub.handler (H := Example.builtins) c) srv 0 (Example.authorized "gho_1"))
    = trace (run (GitHub.handler (H := Example.builtins) c) srv 0 w') /\
  outcome (run (GitHub.handler (H := Example.builtins) c) srv 0 (Example.authorized "gho_1"))
    = outcome (run (GitHub.handler (H := Example.builtins) c) srv 0 w').
Proof.
  cbv zeta. apply (handler_reads_only_the_token (H := Example.builtins)).
  vm_compute. reflexivity.
Defined.








Lemma persist_error_status_mapping_witness :
  outcome
    (run (Broker.save_authorization_data_and_return_response (H := Example.builtins)
            Example.base_hackathon_settings (PDict [("access_token", PStr "gho_1")])
            "GitHub")
         (Example.always (Responded (Example.reply 429 "Too Many Requests" None)))
         0 Example.fresh)
  = inl (HTTPException 500
           "Unexpected error: 429 Client Error: Too Many Requests for url: ").
Proof.
  destruct (persist_error_status_mapping (H := Example.builtins)
              Example.base_hackathon_settings (PDict [("access_token", PStr "gho_1")])
              "GitHub"
              (Example.always (Responded (Example.reply 429 "Too Many Requests" None)))
              0%nat Example.fresh (Example.reply 429 "Too Many Requests" None)
              "429 Client Error: Too Many Requests for url: " eq_refl eq_refl)
    as (_ & _ & _ & _ & _ & Hother).
  apply Hother; cbn; lia.
Defined.

Lemma persist_answer_witness :
  outcome
    (run (Broker.save_authorization_data_and_return_response (H := Example.builtins)
            Example.base_hackathon_settings (PDict [("access_token", PStr "gho_1")])
            "GitHub")
         (Example.always (Responded (Example.reply 201 "Created" None)))
         0 Example.fresh)
  = inr {| jr_status_code := 201;
           jr_content := PDict [("message", PStr "Unexpected response: 201")] |}.
Proof.
  destruct (persist_answer (H := Example.builtins) Example.base_hackathon_settings
              [("access_token", PStr "gho_1")] (PStr "gho_1") "GitHub"
              (Example.always (Responded (Example.reply 201 "Created" None)))
              0%nat Example.fresh (Example.reply 201 "Created" None) eq_refl)
    as [_ Hother].
  { unfold error_status. cbn. lia. }
  { reflexivity. }
  apply Hother. cbn. lia.
Defined.

Lemma persist_returns_only_after_storing_witness :
  let payload := PDict [("access_token", PStr "gho_1"); ("scope", PStr "repo")] in
  let srv := Example.always (Responded (Example.reply 200 "OK" None)) in
  exists d t resp,
    payload = PDict d /\
    dict_lookup "access_token" d = Some t /\
    srv 0%nat (save_request (H := Example.builtins) Example.base_hackathon_settings
                 payload "GitHub") = Responded resp /\
    ~ error_status resp /\
    200 = status_code resp /\
    hackathon_utils_store
      (final (run (Broker.save_authorization_data_and_return_response
                     (H := Example.builtins) Example.base_hackathon_settings payload
                     "GitHub") srv 0 Example.fresh)) !! "GitHub"
      = Some {[ "access_token" := t ]}.
Proof.
  cbv zeta.
  apply (persist_returns_only_after_storing (H := Example.builtins)
           Example.base_hackathon_settings
           (PDict [("access_token", PStr "gho_1"); ("scope", PStr "repo")]) "GitHub"
           (Example.always (Responded (Example.reply 200 "OK" None))) 0%nat Example.fresh
           {| jr_status_code := 200;
              jr_content := PDict [("message",
                                    PStr "Authorization successful and data saved.")] |}).
  vm_compute. reflexivity.
Defined.

Lemma persist_rejects_non_object_witness :
  let r :=
    run (Broker.save_authorization_data_and_return_response (H := Example.builtins)
           Example.base_hackathon_settings
           (PList [PStr "access_token"; PStr "gho_1"]) "GitHub")
        (Example.always (Responded (Example.reply 200 "OK" None))) 0 Example.fresh in
  final r = Example.fresh /\
  (outcome r = inl TypeError \/
   outcome r = inl (ValueError "No access token found in authorization_data_response")).
Proof.
  cbv zeta.
  apply (persist_rejects_non_object (H := Example.builtins)
           Example.base_hackathon_settings (PList [PStr "access_token"; PStr "gho_1"])
           "GitHub" (Example.always (Responded (Example.reply 200 "OK" None))) 0%nat
           Example.fresh (Example.reply 200 "OK" None)).
  - intros d. discriminate.
  - reflexivity.
  - unfold error_status. cbn. lia.
Defined.

Lemma persist_twice_last_wins_witness :
  let persist :=
    Broker.save_authorization_data_and_return_response (H := Example.builtins)
      Example.base_hackathon_settings in
  let srv := Example.always (Responded (Example.reply 200 "OK" None)) in
  final (run (persist (PDict [("access_token", PStr "gho_2")]) "GitHub") srv 0
           (final (run (persist (PDict [("access_token", PStr "gho_1")]) "GitHub") srv 0
                     Example.fresh)))
  = final (run (persist (PDict [("access_token", PStr "gho_2")]) "GitHub") srv 0
             Example.fresh).
Proof.
  cbv zeta.
  apply (persist_twice_last_wins (H := Example.builtins) Example.base_hackathon_settings
           [("access_token", PStr "gho_1")] [("access_token", PStr "gho_2")]
           (PStr "gho_1") (PStr "gho_2") "GitHub" _ 0%nat _ 0%nat Example.fresh
           (Example.reply 200 "OK" None) (Example.reply 200 "OK" None));
    first [reflexivity | unfold error_status; cbn; lia].
Defined.

Lemma github_callback_without_code_witness :
  run (Broker.get_github_token (H := Example.builtins) Example.base_hackathon_settings
         Example.github_auth_settings (Some "") (Some "redirect_uri_mismatch"))
      (Example.always (Responded (Example.reply 200 "OK" None))) 0 Example.fresh
  = {| final := Example.fresh; trace := [];
       outcome := inl (HTTPException 400 "Authorization code is missing") |}.
Proof.
  apply (github_callback_without_code (H := Example.builtins)).
  - discriminate.
  - by right.
Defined.

Lemma failed_exchange_skips_persist_witness :
  let resp := Example.reply 401 "Unauthorized" None in
  run (Broker.get_github_token (H := Example.builtins) Example.base_hackathon_settings
         Example.github_auth_settings (Some "abc") None)
      (Example.always (Responded resp)) 0 Example.fresh
  = {| final := Example.fresh;
       trace := [EvRequest (exchange_request Example.github_auth_settings (Some "abc"))];
       outcome := inl (HTTPError "401 Client Error: Unauthorized for url: " resp) |}.
Proof.
  cbv zeta.
  destruct (failed_exchange_skips_persist (H := Example.builtins)
              Example.base_hackathon_settings Example.github_auth_settings "abc" None
              (Example.always (Responded (Example.reply 401 "Unauthorized" None)))
              0%nat Example.fresh) as (_ & Hhttp & _); [discriminate|discriminate|].
  by apply Hhttp.
Defined.


Lemma todoist_callback_then_persist_witness :
  let callback : option string -> option string -> option string -> prog pyval :=
    fun _ _ _ => Raise (ValueError "state mismatch") in
  run (Broker.get_todoist_token (H := Example.builtins) Example.base_hackathon_settings
         callback (Some "abc") (Some "other") (Some "server_error"))
      (Example.always (Responded (Example.reply 200 "OK" None))) 0 Example.fresh
  = {| final := Example.fresh; trace := [];
       outcome := inl (ValueError "state mismatch") |}.
Proof.
  cbv zeta.
  destruct (todoist_callback_then_persist (H := Example.builtins)
              Example.base_hackathon_settings
              (fun _ _ _ => Raise (ValueError "state mismatch"))
              (Some "abc") (Some "other") (Some "server_error")
              (Example.always (Responded (Example.reply 200 "OK" None))) 0%nat
              Example.fresh) as [Hraise _].
  { unfold todoist_rejects. intros [Hx | [Hx | Hx]]; discriminate Hx. }
  by apply Hraise.
Defined.
